(** * bot.py: gated file links over a chat transport

    A shallow embedding of [src/bot.py]: the membership gate
    ([is_subscribed]), the link registry kept in the [files] collection
    ([find_one], [insert_one], [update_one]) and the handlers ([start],
    [upload], [handle_media], [revoke_link]) with the scheduled
    [delete_message] job.

    Handlers are functions in a small monad that threads the collection,
    records every call to the transport, the store and the job queue in
    program order, and may end in a Python exception.

    The collection is the list of its documents in natural order:
    [find_one] and [update_one] act on the first match, [insert_one]
    appends.  Membership queries answer or raise as the transport decides;
    the other transport calls and the store calls are taken to return.
    An update may come without [update.message] (an edited message): the
    handlers that reply through it then raise AttributeError.
    Free names of a function are looked up in the module's namespace, which
    the handlers take as [globals]; [bot_py_globals] is the one bot.py
    builds. *)

From Stdlib Require Import String Ascii List ZArith Bool Lia.
Import ListNotations.
Local Open Scope list_scope.
Local Open Scope string_scope.

(** ** Python string primitives used by the handlers *)

Module Py.

(** [s.startswith(p)] *)
Definition startswith (s p : string) : bool := String.prefix p s.

(** Left-to-right scan of [str.replace(old, '')]: [skip] characters of a
    match still have to be dropped. *)
Fixpoint remove_from (old : string) (skip : nat) (s : string) : string :=
  match s with
  | EmptyString => EmptyString
  | String c rest =>
      match skip with
      | S k => remove_from old k rest
      | O =>
          if String.prefix old s
          then remove_from old (String.length old - 1) rest
          else String c (remove_from old 0 rest)
      end
  end.

(** [s.replace(old, '')]: every non-overlapping occurrence of [old],
    found from the left, is deleted.  With an empty [old] Python inserts
    the empty replacement between characters, which gives [s] back. *)
Definition replace_empty (s old : string) : string :=
  match old with
  | EmptyString => s
  | _ => remove_from old 0 s
  end.

(** [s[1:]] *)
Definition slice_from_1 (s : string) : string :=
  match s with
  | EmptyString => EmptyString
  | String _ rest => rest
  end.

(** [xs[-1]] on a non-empty sequence of strings. *)
Definition last_item (xs : list string) : string := List.last xs EmptyString.

End Py.

(** ** The [files] collection *)

Module Files.

(** A document of the collection (line 22).  [.get('revoked', False)] in
    [start] allows for a document without the field, hence the option. *)
Record FileDoc := {
  file_id : string;
  link : string;
  revoked : option bool;
  timestamp : Z
}.

(** The collection in natural (insertion) order. *)
Definition Collection := list FileDoc.

Definition has_file_id (fid : string) (d : FileDoc) : bool :=
  String.eqb (file_id d) fid.

(** [find_one({'file_id': fid})]: the first match in natural order. *)
Definition find_one (fid : string) (c : Collection) : option FileDoc :=
  List.find (has_file_id fid) c.

(** [insert_one(d)]: a new document at the end; nothing is looked up. *)
Definition insert_one (d : FileDoc) (c : Collection) : Collection :=
  (c ++ [d])%list.

Definition set_revoked (d : FileDoc) : FileDoc :=
  {| file_id := file_id d; link := link d;
     revoked := Some true; timestamp := timestamp d |}.

(** [update_one({'file_id': fid}, {'$set': {'revoked': True}})]: the first
    match gets the field; the result carries [matched_count]. *)
Fixpoint update_one (fid : string) (c : Collection) : nat * Collection :=
  match c with
  | [] => (0%nat, [])
  | d :: rest =>
      if has_file_id fid d then (1%nat, set_revoked d :: rest)
      else let (n, rest') := update_one fid rest in (n, d :: rest')
  end.

End Files.

Abbreviation FileDoc := Files.FileDoc.
Abbreviation Collection := Files.Collection.

(** ** Transport data *)

Record User := { id : Z; mention_html : string }.

(** An inbound message: the [file_id] of its document or video when there is
    one, and of each photo size, smallest first as the transport sends them. *)
Record Message := {
  message_id : Z;
  document : option string;
  photo : list string;
  video : option string
}.

Record CallbackQuery := { from_user : User; data : string }.

(** An update as a handler sees it.  [message] is [update.message]: it is
    None when the update is an edited message (or a channel post), which
    the command and message handlers of [main] receive as well.  The sender
    is there on every message, edited message and button press.  (A channel
    post has no sender either: [handle_media] then raises at line 81 with
    nothing done, as it does here on an update without a message.) *)
Record Update := {
  effective_user : User;
  message : option Message;
  callback_query : CallbackQuery
}.

Record Bot := { username : string; bot_id : Z }.

(** The handler's [context]: the bot and the arguments of the command. *)
Record Context := { bot : Bot; args : list string }.

Record InlineKeyboardButton := {
  text : string;
  url : option string;
  callback_data : option string
}.

Definition InlineKeyboardMarkup := list (list InlineKeyboardButton).

Inductive exn :=
| NameError (name : string)
| AttributeError (attr : string)
| TelegramError (msg : string).

Inductive result (A : Type) :=
| Ok (a : A)
| Raise (e : exn).
Arguments Ok {A} a.
Arguments Raise {A} e.

(** Every call a handler makes to the outside, in program order. *)
Inductive effect :=
| get_chat_member (chat_id : string) (user_id : Z)
| reply_text (body : string) (reply_markup : InlineKeyboardMarkup)
| send_document (chat_id : Z) (doc : string)
| answer
| edit_message_text (body : string)
| db_find_one (fid : string)
| db_insert_one (d : FileDoc)
| db_update_one (fid : string)
| run_once (delay : Z) (job_data : Z)
| bot_delete_message (chat_id : Z) (msg_id : Z).

(** The membership query of the transport: a status, or an exception. *)
Definition Transport := string -> Z -> result string.

(** ** The handler monad: collection in, result, collection and calls out *)

Definition M (A : Type) : Type :=
  Collection -> result A * Collection * list effect.

Definition ret {A} (a : A) : M A := fun c => (Ok a, c, []).

Definition bind {A B} (m : M A) (k : A -> M B) : M B :=
  fun c =>
    match m c with
    | (Ok a, c1, es1) =>
        match k a c1 with
        | (r, c2, es2) => (r, c2, (es1 ++ es2)%list)
        end
    | (Raise e, c1, es1) => (Raise e, c1, es1)
    end.

Definition raise {A} (e : exn) : M A := fun c => (Raise e, c, []).

Definition emit (e : effect) : M unit := fun c => (Ok tt, c, [e]).

Declare Scope py_scope.
Delimit Scope py_scope with py.
Notation "x <- m ;; k" := (bind m (fun x => k))
  (at level 61, m at next level, right associativity) : py_scope.
Notation "m ;; k" := (bind m (fun _ => k))
  (at level 61, right associativity) : py_scope.
Local Open Scope py_scope.

Definition res_of {A} (o : result A * Collection * list effect) : result A :=
  fst (fst o).
Definition files_of {A} (o : result A * Collection * list effect) : Collection :=
  snd (fst o).
Definition calls_of {A} (o : result A * Collection * list effect) : list effect :=
  snd o.

Definition files_find_one (fid : string) : M (option FileDoc) :=
  fun c => (Ok (Files.find_one fid c), c, [db_find_one fid]).

Definition files_insert_one (d : FileDoc) : M unit :=
  fun c => (Ok tt, Files.insert_one d c, [db_insert_one d]).

Definition files_update_one (fid : string) : M nat :=
  fun c => let (n, c') := Files.update_one fid c in (Ok n, c', [db_update_one fid]).

(** ** Module namespace *)

Inductive pyobj :=
| PyContext (c : Context)
| PyOther.

Definition namespace := list (string * pyobj).

Fixpoint lookup (x : string) (g : namespace) : option pyobj :=
  match g with
  | [] => None
  | (y, o) :: rest => if String.eqb x y then Some o else lookup x rest
  end.

(** The names bound at module level of bot.py: its imports, the values read
    from the environment, the Mongo handles, the Flask app, the logger and
    the functions.  None of them is a handler context. *)
Definition bot_py_globals : namespace :=
  map (fun x => (x, PyOther))
    ["os"; "asyncio"; "logging"; "datetime"; "timedelta";
     "Update"; "InlineKeyboardButton"; "InlineKeyboardMarkup";
     "Application"; "CommandHandler"; "MessageHandler";
     "CallbackQueryHandler"; "filters"; "ContextTypes";
     "MongoClient"; "load_dotenv"; "Flask";
     "BOT_TOKEN"; "MONGO_URI"; "ADMIN_ID"; "FORCE_SUB_CHANNELS";
     "DELETE_TIME_MINUTES"; "client"; "db"; "files_collection";
     "app"; "home"; "logger";
     "is_subscribed"; "generate_link"; "start"; "upload"; "handle_media";
     "revoke_link"; "delete_message"; "main"].

(** ** The program *)

Section Bot.

(** Configuration read once from the environment (lines 13-17). *)
Variable ADMIN_ID : Z.
Variable FORCE_SUB_CHANNELS : list string.
Variable DELETE_TIME_MINUTES : Z.

(** The module's global names, as a free name of a function sees them. *)
Variable globals : namespace.

Definition status_ok (status : string) : bool :=
  existsb (String.eqb status) ["member"; "administrator"; "creator"].

(** The [for] loop of [is_subscribed] over the channels still to check. *)
Fixpoint is_subscribed_loop (tg : Transport) (channels : list string)
    (user_id : Z) : M bool :=
  match channels with
  | [] => ret true
  | channel :: rest =>
      fun c =>
        match tg channel user_id with
        | Ok status =>
            if negb (status_ok status)
            then (Ok false, c, [get_chat_member channel user_id])
            else
              match is_subscribed_loop tg rest user_id c with
              | (r, c', es) => (r, c', get_chat_member channel user_id :: es)
              end
        | Raise _ => (Ok false, c, [get_chat_member channel user_id])
        end
  end.

Definition is_subscribed (tg : Transport) (update : Update)
    (context : Context) : M bool :=
  let user_id := id (effective_user update) in
  is_subscribed_loop tg FORCE_SUB_CHANNELS user_id.

(** [generate_link] has one parameter, [file_id]; [context] in its body is
    a free name, looked up in the module's globals. *)
Definition generate_link (file_id : string) : result string :=
  match lookup "context" globals with
  | None => Raise (NameError "context")
  | Some (PyContext context) =>
      Ok ("https://t.me/" ++ username (bot context)
            ++ "?start=file_" ++ file_id)
  | Some PyOther => Raise (AttributeError "bot")
  end.

Definition subscribe_button (channel : string) : InlineKeyboardButton :=
  {| text := "Subscribe to " ++ channel;
     url := Some ("https://t.me/" ++ Py.slice_from_1 channel);
     callback_data := None |}.

Definition greeting (user : User) : string :=
  "Hello " ++ mention_html user
    ++ "! Use /upload to share files (admin only).".

(** [update.message.reply_text(body, reply_markup=markup)]: on an update
    without a message the attribute lookup on None raises. *)
Definition message_reply_text (update : Update) (body : string)
    (markup : InlineKeyboardMarkup) : M unit :=
  match message update with
  | Some _ => emit (reply_text body markup)
  | None => raise (AttributeError "reply_text")
  end.

Definition start (tg : Transport) (update : Update) (context : Context)
    : M unit :=
  let user := effective_user update in
  subscribed <- is_subscribed tg update context ;;
  if negb subscribed then
    let keyboard :=
      map (fun channel => [subscribe_button channel]) FORCE_SUB_CHANNELS in
    message_reply_text update
      "Please subscribe to all our channels to use this bot." keyboard
  else
    match args context with
    | arg0 :: _ =>
        if Py.startswith arg0 "file_" then
          let file_id := Py.replace_empty arg0 "file_" in
          file_doc <- files_find_one file_id ;;
          match file_doc with
          | Some d =>
              if negb (match Files.revoked d with Some b => b | None => false end)
              then
                message_reply_text update "Accessing file..." [] ;;
                emit (send_document (id user) (Files.file_id d))
              else message_reply_text update "Link expired or invalid." []
          | None => message_reply_text update "Link expired or invalid." []
          end
        else message_reply_text update (greeting user) []
    | [] => message_reply_text update (greeting user) []
    end.

Definition upload (update : Update) (context : Context) : M unit :=
  if negb (id (effective_user update) =? ADMIN_ID)%Z
  then message_reply_text update "Only admin can upload." []
  else message_reply_text update
         "Send me a file, photo, or video to upload." [].

(** The [if]/[elif] chain of [handle_media] that picks the file id. *)
Definition media_file_id (message : Message) : option string :=
  match document message with
  | Some fid => Some fid
  | None =>
      match photo message with
      | _ :: _ => Some (Py.last_item (photo message))
      | [] =>
          match video message with
          | Some fid => Some fid
          | None => None
          end
      end
  end.

Definition revoke_button (file_id : string) : InlineKeyboardButton :=
  {| text := "Revoke Link"; url := None;
     callback_data := Some ("revoke_" ++ file_id) |}.

(** [now] is the value of [datetime.utcnow()] at line 103.  With
    [update.message] None, [message.document] at line 87 raises; once the
    message is there, the later [update.message.reply_text] calls find
    it. *)
Definition handle_media (update : Update) (context : Context) (now : Z)
    : M unit :=
  if negb (id (effective_user update) =? ADMIN_ID)%Z
  then message_reply_text update "Only admin can upload files." []
  else
    match message update with
    | None => raise (AttributeError "document")
    | Some message =>
        match media_file_id message with
        | None => emit (reply_text "Unsupported file type." [])
        | Some file_id =>
            match generate_link file_id with
            | Raise e => raise e
            | Ok link =>
                files_insert_one
                  {| Files.file_id := file_id; Files.link := link;
                     Files.revoked := Some false; Files.timestamp := now |} ;;
                emit (reply_text ("File uploaded! Share this link: " ++ link)
                        [[revoke_button file_id]]) ;;
                emit (run_once (DELETE_TIME_MINUTES * 60)
                        (message_id message))
            end
        end
    end.

Definition revoke_link (update : Update) (context : Context) : M unit :=
  let query := callback_query update in
  emit answer ;;
  if negb (id (from_user query) =? ADMIN_ID)%Z
  then emit (edit_message_text "Only admin can revoke.")
  else
    let file_id := Py.replace_empty (data query) "revoke_" in
    _ <- files_update_one file_id ;;
    emit (edit_message_text "Link revoked!").

(** The job armed by [handle_media]; a failed deletion is swallowed. *)
Definition delete_message (context : Context) (job_data : Z) : M unit :=
  emit (bot_delete_message (bot_id (bot context)) job_data).

(** One handler run, on any input the application may hand over. *)
Inductive step : Collection -> Collection -> Prop :=
| step_start tg update context c :
    step c (files_of (start tg update context c))
| step_upload update context c :
    step c (files_of (upload update context c))
| step_handle_media update context now c :
    step c (files_of (handle_media update context now c))
| step_revoke_link update context c :
    step c (files_of (revoke_link update context c))
| step_delete_message context job_data c :
    step c (files_of (delete_message context job_data c)).

Inductive steps : Collection -> Collection -> Prop :=
| steps_refl c : steps c c
| steps_cons c1 c2 c3 : step c1 c2 -> steps c2 c3 -> steps c1 c3.

End Bot.

(** ** Vocabulary of the properties *)

(** A channel is satisfied when the query answers with one of the three
    accepted statuses. *)
Definition satisfies (tg : Transport) (user_id : Z) (channel : string) : bool :=
  match tg channel user_id with
  | Ok status => status_ok status
  | Raise _ => false
  end.

Definition gate (tg : Transport) (user_id : Z) (channels : list string) : bool :=
  forallb (satisfies tg user_id) channels.

(** The channels a check asks about: up to the first unsatisfied one. *)
Fixpoint queried (tg : Transport) (user_id : Z) (channels : list string)
    : list string :=
  match channels with
  | [] => []
  | channel :: rest =>
      channel :: (if satisfies tg user_id channel
                  then queried tg user_id rest else [])
  end.

(** What reaches the chat: replies, deliveries and message edits. *)
Definition user_visible (e : effect) : bool :=
  match e with
  | reply_text _ _ | send_document _ _ | edit_message_text _ => true
  | _ => false
  end.

Definition is_store_read (e : effect) : bool :=
  match e with db_find_one _ => true | _ => false end.

Definition is_store_write (e : effect) : bool :=
  match e with db_insert_one _ | db_update_one _ => true | _ => false end.

Definition is_delivery (e : effect) : bool :=
  match e with send_document _ _ => true | _ => false end.

(** How many documents carry a given token. *)
Definition count_file_id (fid : string) (c : Collection) : nat :=
  List.length (List.filter (Files.has_file_id fid) c).

(** The first document with the token exists and is revoked. *)
Definition resolves_revoked (fid : string) (c : Collection) : Prop :=
  exists d, Files.find_one fid c = Some d /\ Files.revoked d = Some true.

(** The document [handle_media] builds at lines 99-104. *)
Definition new_file_doc (file_id link : string) (now : Z) : FileDoc :=
  {| Files.file_id := file_id; Files.link := link;
     Files.revoked := Some false; Files.timestamp := now |}.

(** The membership queries of one check, in order. *)
Definition gate_calls (tg : Transport) (user_id : Z) (channels : list string)
    : list effect :=
  map (fun channel => get_chat_member channel user_id)
      (queried tg user_id channels).

(** The keyboard of the subscription prompt: one row per channel. *)
Definition subscribe_keyboard (channels : list string) : InlineKeyboardMarkup :=
  map (fun channel => [subscribe_button channel]) channels.

(** What [update.message.reply_text] comes to: the call, or AttributeError
    before any call when the update has no message. *)
Definition reply_run (update : Update) (body : string)
    (markup : InlineKeyboardMarkup) : result unit * list effect :=
  match message update with
  | Some _ => (Ok tt, [reply_text body markup])
  | None => (Raise (AttributeError "reply_text"), [])
  end.

(** What the lookup branch of [start] comes to once the token is
    extracted: the result and the calls, the lookup first. *)
Definition redeem_run (update : Update) (fid : string) (c : Collection)
    : result unit * list effect :=
  match Files.find_one fid c with
  | Some d =>
      if negb (match Files.revoked d with Some b => b | None => false end)
      then
        match message update with
        | Some _ =>
            (Ok tt,
             [db_find_one fid; reply_text "Accessing file..." [];
              send_document (id (effective_user update)) (Files.file_id d)])
        | None => (Raise (AttributeError "reply_text"), [db_find_one fid])
        end
      else
        (fst (reply_run update "Link expired or invalid." []),
         db_find_one fid
           :: snd (reply_run update "Link expired or invalid." []))
  | None =>
      (fst (reply_run update "Link expired or invalid." []),
       db_find_one fid
         :: snd (reply_run update "Link expired or invalid." []))
  end.

(** A channel requirement is met: the query answers, with an accepted
    status. *)
Definition satisfied (tg : Transport) (user_id : Z) (channel : string) : Prop :=
  exists status,
    tg channel user_id = Ok status
    /\ In status ["member"; "administrator"; "creator"].

(** The marker [old] occurs nowhere in [s]. *)
Fixpoint marker_free (old s : string) : bool :=
  match s with
  | EmptyString => true
  | String _ rest => negb (String.prefix old s) && marker_free old rest
  end.

(** ** Sample inputs *)

Definition admin : User := {| id := 1; mention_html := "<b>admin</b>" |}.
Definition reader : User := {| id := 2; mention_html := "<b>reader</b>" |}.

Definition file_bot : Bot := {| username := "file_bot"; bot_id := 99 |}.

Definition no_media : Message :=
  {| message_id := 7; document := None; photo := []; video := None |}.

Definition a_document (fid : string) : Message :=
  {| message_id := 7; document := Some fid; photo := []; video := None |}.

Definition press (user : User) (payload : string) : CallbackQuery :=
  {| from_user := user; data := payload |}.

(** An update from [user]: a message, or a button press with [payload]. *)
Definition update_of (user : User) (msg : Message) (payload : string) : Update :=
  {| effective_user := user; message := Some msg;
     callback_query := press user payload |}.

(** An update from [user] that is an edit of an earlier message: it has no
    [update.message]. *)
Definition edited_update_of (user : User) : Update :=
  {| effective_user := user; message := None;
     callback_query := press user "" |}.

Definition command (arguments : list string) : Context :=
  {| bot := file_bot; args := arguments |}.

Definition everyone_member : Transport := fun _ _ => Ok "member".
Definition everyone_left : Transport := fun _ _ => Ok "left".
Definition unreachable : Transport :=
  fun _ _ => Raise (TelegramError "Chat not found").

(** A namespace in which the free name of [generate_link] is bound. *)
Definition globals_with_context : namespace :=
  ("context", PyContext (command [])) :: bot_py_globals.

(** ** Configuration *)

Module Config.

(** [s.split(sep)] for a one-character separator: the pieces between the
    separators, empty ones included; never an empty list. *)
Fixpoint str_split (sep : ascii) (s : string) : list string :=
  match s with
  | EmptyString => [EmptyString]
  | String ch rest =>
      match str_split sep rest with
      | piece :: pieces =>
          if Ascii.eqb ch sep then EmptyString :: piece :: pieces
          else String ch piece :: pieces
      | [] => []
      end
  end.

(** [sep.join(pieces)] *)
Fixpoint str_join (sep : ascii) (pieces : list string) : string :=
  match pieces with
  | [] => EmptyString
  | [piece] => piece
  | piece :: more => piece ++ String sep (str_join sep more)
  end.

(** Line 16: the channel list from the value of the environment variable,
    [None] when it is not set.  An empty value is falsy, like an unset
    one. *)
Definition FORCE_SUB_CHANNELS (getenv : option string) : list string :=
  match getenv with
  | Some (String _ _ as value) => str_split "," value
  | _ => []
  end.

End Config.

(** Two collections hold the same documents up to their flags, and a flag
    once set is still set in the second. *)
Definition same_but_flags (d d' : FileDoc) : Prop :=
  Files.file_id d' = Files.file_id d
  /\ Files.link d' = Files.link d
  /\ Files.timestamp d' = Files.timestamp d
  /\ (Files.revoked d' = Files.revoked d \/ Files.revoked d' = Some true).

Definition is_membership_query (e : effect) : bool :=
  match e with get_chat_member _ _ => true | _ => false end.

Definition is_job (e : effect) : bool :=
  match e with run_once _ _ => true | _ => false end.

(** ** Strings *)

Lemma remove_from_skip (old u t : string) :
  Py.remove_from old (String.length u) (u ++ t) = Py.remove_from old 0 t.
Proof.
  induction u as [|a u IH]; simpl.
  - reflexivity.
  - exact IH.
Qed.

Lemma prefix_append (p t : string) : String.prefix p (p ++ t) = true.
Proof.
  induction p as [|a p IH]; simpl.
  - now destruct t.
  - destruct (Ascii.ascii_dec a a) as [_|ne]; [exact IH | now elim ne].
Qed.

(** Removing a marker from marker-plus-token removes it inside the token too:
    the scan goes on after the leading occurrence. *)
Lemma replace_empty_marker (a : ascii) (m t : string) :
  Py.replace_empty (String a m ++ t) (String a m)
  = Py.replace_empty t (String a m).
Proof.
  unfold Py.replace_empty.
  change (String a m ++ t) with (String a (m ++ t)).
  cbn [Py.remove_from].
  change (String a (m ++ t)) with (String a m ++ t).
  rewrite prefix_append.
  replace (String.length (String a m) - 1)%nat with (String.length m)
    by (cbn [String.length]; lia).
  apply remove_from_skip.
Qed.

(** A token without the marker comes out of the scan as it is. *)
Lemma remove_from_marker_free (old t : string) :
  marker_free old t = true -> Py.remove_from old 0 t = t.
Proof.
  induction t as [|a t IH]; intros F.
  - reflexivity.
  - cbn [marker_free] in F. apply andb_true_iff in F. destruct F as [N F].
    apply negb_true_iff in N. cbn [Py.remove_from]. rewrite N.
    now rewrite (IH F).
Qed.

(** ** The collection *)

Lemma find_one_insert_one (fid : string) (d : FileDoc) (c : Collection) :
  Files.find_one fid (Files.insert_one d c)
  = match Files.find_one fid c with
    | Some x => Some x
    | None => if Files.has_file_id fid d then Some d else None
    end.
Proof.
  unfold Files.find_one, Files.insert_one.
  induction c as [|x c IH]; simpl.
  - reflexivity.
  - destruct (Files.has_file_id fid x); [reflexivity | exact IH].
Qed.

Lemma find_one_file_id (fid : string) (c : Collection) (d : FileDoc) :
  Files.find_one fid c = Some d -> Files.file_id d = fid.
Proof.
  unfold Files.find_one. intros H.
  apply List.find_some in H. destruct H as [_ H].
  now apply String.eqb_eq.
Qed.

Lemma update_one_matched (fid : string) (c : Collection) :
  fst (Files.update_one fid c)
  = match Files.find_one fid c with Some _ => 1%nat | None => 0%nat end.
Proof.
  unfold Files.find_one.
  induction c as [|x c IH]; simpl.
  - reflexivity.
  - destruct (Files.has_file_id fid x); [reflexivity|].
    destruct (Files.update_one fid c) as [n c']. exact IH.
Qed.

Lemma update_one_not_found (fid : string) (c : Collection) :
  Files.find_one fid c = None -> snd (Files.update_one fid c) = c.
Proof.
  unfold Files.find_one.
  induction c as [|x c IH]; simpl.
  - reflexivity.
  - destruct (Files.has_file_id fid x); [discriminate|].
    intros H. specialize (IH H).
    destruct (Files.update_one fid c) as [n c']. simpl in *. now rewrite IH.
Qed.

Lemma update_one_length (fid : string) (c : Collection) :
  List.length (snd (Files.update_one fid c)) = List.length c.
Proof.
  induction c as [|x c IH]; simpl.
  - reflexivity.
  - destruct (Files.has_file_id fid x); [reflexivity|].
    destruct (Files.update_one fid c) as [n c']. simpl in *. now rewrite IH.
Qed.

(** After [update_one] the first match, when there is one, is revoked. *)
Lemma update_one_found (fid : string) (c : Collection) (d : FileDoc) :
  Files.find_one fid c = Some d ->
  Files.find_one fid (snd (Files.update_one fid c))
  = Some (Files.set_revoked d).
Proof.
  unfold Files.find_one.
  induction c as [|x c IH]; simpl.
  - discriminate.
  - destruct (Files.has_file_id fid x) eqn:E.
    + intros [= ->]. simpl. unfold Files.has_file_id in *. simpl. now rewrite E.
    + intros H. specialize (IH H).
      destruct (Files.update_one fid c) as [n c']. simpl in *. now rewrite E.
Qed.

(** [update_one] on any token keeps a revoked first match revoked. *)
Lemma update_one_keeps_revoked (fid fid' : string) (c : Collection) :
  resolves_revoked fid c ->
  resolves_revoked fid (snd (Files.update_one fid' c)).
Proof.
  unfold resolves_revoked, Files.find_one.
  induction c as [|x c IH]; simpl.
  - intros [d [H _]]. discriminate.
  - intros [d [H R]].
    destruct (Files.has_file_id fid' x) eqn:E'.
    + simpl. unfold Files.has_file_id at 1. simpl.
      fold (Files.has_file_id fid x).
      destruct (Files.has_file_id fid x).
      * exists (Files.set_revoked x). now split.
      * exists d. now split.
    + destruct (Files.update_one fid' c) as [n c'] eqn:U. simpl in *.
      destruct (Files.has_file_id fid x).
      * exists d. now split.
      * apply IH. exists d. now split.
Qed.

Lemma insert_one_keeps_revoked (fid : string) (d : FileDoc) (c : Collection) :
  resolves_revoked fid c -> resolves_revoked fid (Files.insert_one d c).
Proof.
  intros [x [H R]]. exists x. split; [|exact R].
  rewrite find_one_insert_one. now rewrite H.
Qed.

(** Position by position, [update_one] leaves a document as it was or sets
    its flag; the token stays. *)
Lemma update_one_nth (fid : string) (c : Collection) (i : nat) (d : FileDoc) :
  nth_error c i = Some d ->
  nth_error (snd (Files.update_one fid c)) i = Some d \/
  nth_error (snd (Files.update_one fid c)) i = Some (Files.set_revoked d).
Proof.
  revert i. induction c as [|x c IH]; intros i; simpl.
  - destruct i; discriminate.
  - destruct (Files.has_file_id fid x).
    + destruct i; simpl.
      * intros [= ->]. now right.
      * intros H. now left.
    + specialize (IH (pred i)).
      destruct (Files.update_one fid c) as [n c']. simpl in *.
      destruct i; simpl in *.
      * intros H. now left.
      * exact IH.
Qed.

Lemma insert_one_nth (d x : FileDoc) (c : Collection) (i : nat) :
  nth_error c i = Some x -> nth_error (Files.insert_one d c) i = Some x.
Proof.
  intros H. unfold Files.insert_one.
  rewrite nth_error_app1; [exact H|].
  apply nth_error_Some. now rewrite H.
Qed.

Lemma count_file_id_insert_one (fid : string) (d : FileDoc) (c : Collection) :
  count_file_id fid (Files.insert_one d c)
  = (count_file_id fid c + if Files.has_file_id fid d then 1 else 0)%nat.
Proof.
  unfold count_file_id, Files.insert_one.
  rewrite List.filter_app, List.length_app. simpl.
  now destruct (Files.has_file_id fid d).
Qed.

(** ** The handlers, run *)

Section Runs.

Variable ADMIN_ID : Z.
Variable FORCE_SUB_CHANNELS : list string.
Variable DELETE_TIME_MINUTES : Z.
Variable globals : namespace.

(** The membership loop never fails, leaves the collection alone, answers
    [gate] and asks about exactly the [queried] channels. *)
Lemma is_subscribed_loop_run tg channels user_id c :
  is_subscribed_loop tg channels user_id c
  = (Ok (gate tg user_id channels), c, gate_calls tg user_id channels).
Proof.
  unfold gate_calls.
  induction channels as [|channel rest IH]; simpl.
  - reflexivity.
  - unfold satisfies.
    destruct (tg channel user_id) as [status|e]; simpl.
    + destruct (status_ok status); simpl.
      * now rewrite IH.
      * reflexivity.
    + reflexivity.
Qed.

Lemma is_subscribed_run tg update context c :
  is_subscribed FORCE_SUB_CHANNELS tg update context c
  = (Ok (gate tg (id (effective_user update)) FORCE_SUB_CHANNELS), c,
     gate_calls tg (id (effective_user update)) FORCE_SUB_CHANNELS).
Proof. apply is_subscribed_loop_run. Qed.

Lemma message_reply_text_run update body markup c :
  message_reply_text update body markup c
  = (fst (reply_run update body markup), c,
     snd (reply_run update body markup)).
Proof.
  unfold message_reply_text, reply_run.
  destruct (message update); reflexivity.
Qed.

Lemma reply_run_message update msg body markup :
  message update = Some msg ->
  reply_run update body markup = (Ok tt, [reply_text body markup]).
Proof. unfold reply_run. now intros ->. Qed.

Lemma reply_run_no_message update body markup :
  message update = None ->
  reply_run update body markup = (Raise (AttributeError "reply_text"), []).
Proof. unfold reply_run. now intros ->. Qed.

Lemma start_denied tg update context c :
  gate tg (id (effective_user update)) FORCE_SUB_CHANNELS = false ->
  start FORCE_SUB_CHANNELS tg update context c
  = (fst (reply_run update
            "Please subscribe to all our channels to use this bot."
            (subscribe_keyboard FORCE_SUB_CHANNELS)),
     c,
     (gate_calls tg (id (effective_user update)) FORCE_SUB_CHANNELS
      ++ snd (reply_run update
                "Please subscribe to all our channels to use this bot."
                (subscribe_keyboard FORCE_SUB_CHANNELS)))%list).
Proof.
  intros G. unfold start, bind.
  rewrite is_subscribed_run, G. cbn [negb].
  now rewrite message_reply_text_run.
Qed.

Lemma start_greeting tg update context c :
  gate tg (id (effective_user update)) FORCE_SUB_CHANNELS = true ->
  match args context with
  | [] => True
  | arg0 :: _ => Py.startswith arg0 "file_" = false
  end ->
  start FORCE_SUB_CHANNELS tg update context c
  = (fst (reply_run update (greeting (effective_user update)) []), c,
     (gate_calls tg (id (effective_user update)) FORCE_SUB_CHANNELS
      ++ snd (reply_run update (greeting (effective_user update)) []))%list).
Proof.
  intros G A. unfold start, bind. rewrite is_subscribed_run, G. cbn [negb].
  destruct (args context) as [|arg0 rest].
  - now rewrite message_reply_text_run.
  - rewrite A. now rewrite message_reply_text_run.
Qed.

Lemma start_redeem tg update context c arg0 rest :
  gate tg (id (effective_user update)) FORCE_SUB_CHANNELS = true ->
  args context = arg0 :: rest ->
  Py.startswith arg0 "file_" = true ->
  start FORCE_SUB_CHANNELS tg update context c
  = (fst (redeem_run update (Py.replace_empty arg0 "file_") c), c,
     (gate_calls tg (id (effective_user update)) FORCE_SUB_CHANNELS
      ++ snd (redeem_run update (Py.replace_empty arg0 "file_") c))%list).
Proof.
  intros G A P. unfold start, bind, redeem_run, files_find_one.
  rewrite is_subscribed_run, G, A, P.
  generalize (Py.replace_empty arg0 "file_"); intros fid.
  cbn [negb].
  destruct (Files.find_one fid c) as [d|].
  - destruct (Files.revoked d) as [[|]|]; cbn [negb];
      rewrite ?message_reply_text_run; unfold reply_run, emit;
      destruct (message update); reflexivity.
  - rewrite message_reply_text_run. unfold reply_run.
    destruct (message update); reflexivity.
Qed.

(** Every run of [start] is one of three: denied, greeted, looked up. *)
Lemma start_cases tg update context c :
  let user := effective_user update in
  let out := start FORCE_SUB_CHANNELS tg update context c in
  (gate tg (id user) FORCE_SUB_CHANNELS = false
   /\ out
      = (fst (reply_run update
                "Please subscribe to all our channels to use this bot."
                (subscribe_keyboard FORCE_SUB_CHANNELS)),
         c,
         (gate_calls tg (id user) FORCE_SUB_CHANNELS
          ++ snd (reply_run update
                    "Please subscribe to all our channels to use this bot."
                    (subscribe_keyboard FORCE_SUB_CHANNELS)))%list))
  \/ (gate tg (id user) FORCE_SUB_CHANNELS = true
      /\ out
         = (fst (reply_run update (greeting user) []), c,
            (gate_calls tg (id user) FORCE_SUB_CHANNELS
             ++ snd (reply_run update (greeting user) []))%list))
  \/ (exists arg0 rest,
         gate tg (id user) FORCE_SUB_CHANNELS = true
         /\ args context = arg0 :: rest
         /\ Py.startswith arg0 "file_" = true
         /\ out
            = (fst (redeem_run update (Py.replace_empty arg0 "file_") c), c,
               (gate_calls tg (id user) FORCE_SUB_CHANNELS
                ++ snd (redeem_run update (Py.replace_empty arg0 "file_") c))
               %list)).
Proof.
  intros user out. subst user out.
  destruct (gate tg (id (effective_user update)) FORCE_SUB_CHANNELS) eqn:G.
  - destruct (args context) as [|arg0 rest] eqn:A.
    + right; left. split; [reflexivity|].
      apply start_greeting; [exact G | now rewrite A].
    + destruct (Py.startswith arg0 "file_") eqn:P.
      * right; right. exists arg0, rest.
        repeat split; try assumption.
        now apply start_redeem with (rest := rest).
      * right; left. split; [reflexivity|].
        apply start_greeting; [exact G | now rewrite A].
  - left. split; [reflexivity | now apply start_denied].
Qed.

Lemma start_files tg update context c :
  files_of (start FORCE_SUB_CHANNELS tg update context c) = c.
Proof.
  destruct (start_cases tg update context c)
    as [[G E]|[[G E]|[arg0 [rest [G [A [P E]]]]]]];
    cbv zeta in E; now rewrite E.
Qed.

Lemma upload_files update context c :
  files_of (upload ADMIN_ID update context c) = c.
Proof.
  unfold upload.
  destruct (negb (id (effective_user update) =? ADMIN_ID)%Z);
    now rewrite message_reply_text_run.
Qed.

(** [handle_media] with the link built: one insert, the reply, the job. *)
Lemma handle_media_accepted update context now c msg fid link :
  id (effective_user update) = ADMIN_ID ->
  message update = Some msg ->
  media_file_id msg = Some fid ->
  generate_link globals fid = Ok link ->
  handle_media ADMIN_ID DELETE_TIME_MINUTES globals update context now c
  = (Ok tt, Files.insert_one (new_file_doc fid link now) c,
     [db_insert_one (new_file_doc fid link now);
      reply_text ("File uploaded! Share this link: " ++ link)
        [[revoke_button fid]];
      run_once (DELETE_TIME_MINUTES * 60) (message_id msg)]).
Proof.
  intros A Ms F L. unfold handle_media.
  rewrite A, Z.eqb_refl, Ms, F, L. reflexivity.
Qed.

(** [handle_media] when building the link raises: nothing is done. *)
Lemma handle_media_link_raises update context now c msg fid e :
  id (effective_user update) = ADMIN_ID ->
  message update = Some msg ->
  media_file_id msg = Some fid ->
  generate_link globals fid = Raise e ->
  handle_media ADMIN_ID DELETE_TIME_MINUTES globals update context now c
  = (Raise e, c, []).
Proof.
  intros A Ms F L. unfold handle_media.
  rewrite A, Z.eqb_refl, Ms, F, L. reflexivity.
Qed.

Lemma handle_media_unsupported update context now c msg :
  id (effective_user update) = ADMIN_ID ->
  message update = Some msg ->
  media_file_id msg = None ->
  handle_media ADMIN_ID DELETE_TIME_MINUTES globals update context now c
  = (Ok tt, c, [reply_text "Unsupported file type." []]).
Proof.
  intros A Ms F. unfold handle_media.
  rewrite A, Z.eqb_refl, Ms, F. reflexivity.
Qed.

Lemma handle_media_no_message update context now c :
  id (effective_user update) = ADMIN_ID ->
  message update = None ->
  handle_media ADMIN_ID DELETE_TIME_MINUTES globals update context now c
  = (Raise (AttributeError "document"), c, []).
Proof.
  intros A Ms. unfold handle_media.
  rewrite A, Z.eqb_refl, Ms. reflexivity.
Qed.

Lemma handle_media_not_admin update context now c :
  id (effective_user update) <> ADMIN_ID ->
  handle_media ADMIN_ID DELETE_TIME_MINUTES globals update context now c
  = (fst (reply_run update "Only admin can upload files." []), c,
     snd (reply_run update "Only admin can upload files." [])).
Proof.
  intros A. unfold handle_media.
  apply Z.eqb_neq in A. rewrite A. cbn [negb].
  apply message_reply_text_run.
Qed.

(** The ways a run of [handle_media] can go: nothing written and nothing
    armed, with at most one of the two refusals said, or the accepted
    upload. *)
Lemma handle_media_cases update context now c :
  (exists r es,
      handle_media ADMIN_ID DELETE_TIME_MINUTES globals update context now c
      = (r, c, es)
      /\ (es = []
          \/ es = [reply_text "Only admin can upload files." []]
          \/ es = [reply_text "Unsupported file type." []]))
  \/ (exists msg fid link,
         id (effective_user update) = ADMIN_ID
         /\ message update = Some msg
         /\ media_file_id msg = Some fid
         /\ generate_link globals fid = Ok link
         /\ handle_media ADMIN_ID DELETE_TIME_MINUTES globals
              update context now c
            = (Ok tt, Files.insert_one (new_file_doc fid link now) c,
               [db_insert_one (new_file_doc fid link now);
                reply_text ("File uploaded! Share this link: " ++ link)
                  [[revoke_button fid]];
                run_once (DELETE_TIME_MINUTES * 60) (message_id msg)])).
Proof.
  destruct (Z.eq_dec (id (effective_user update)) ADMIN_ID) as [A|A].
  - destruct (message update) as [msg|] eqn:Ms.
    + destruct (media_file_id msg) as [fid|] eqn:F.
      * destruct (generate_link globals fid) as [link|e] eqn:L.
        -- right. exists msg, fid, link. repeat split; try assumption.
           now apply handle_media_accepted.
        -- left. exists (Raise e), []. split; [|now left].
           exact (handle_media_link_raises _ _ _ _ msg fid e A Ms F L).
      * left. exists (Ok tt), [reply_text "Unsupported file type." []].
        split; [|right; now right].
        exact (handle_media_unsupported _ _ _ _ msg A Ms F).
    + left. exists (Raise (AttributeError "document")), [].
      split; [|now left].
      exact (handle_media_no_message _ _ _ _ A Ms).
  - left. rewrite (handle_media_not_admin _ _ _ _ A). unfold reply_run.
    destruct (message update).
    + eexists. eexists. split; [reflexivity|]. right; now left.
    + eexists. eexists. split; [reflexivity|]. now left.
Qed.

Lemma handle_media_files update context now c :
  files_of (handle_media ADMIN_ID DELETE_TIME_MINUTES globals
              update context now c) = c
  \/ exists fid link,
       files_of (handle_media ADMIN_ID DELETE_TIME_MINUTES globals
                   update context now c)
       = Files.insert_one (new_file_doc fid link now) c.
Proof.
  destruct (handle_media_cases update context now c)
    as [[r [es [E _]]]|[msg [fid [link [_ [_ [_ [_ E]]]]]]]]; rewrite E.
  - now left.
  - right. now exists fid, link.
Qed.

Lemma revoke_link_admin update context c :
  id (from_user (callback_query update)) = ADMIN_ID ->
  revoke_link ADMIN_ID update context c
  = (Ok tt,
     snd (Files.update_one
            (Py.replace_empty (data (callback_query update)) "revoke_") c),
     [answer;
      db_update_one (Py.replace_empty (data (callback_query update)) "revoke_");
      edit_message_text "Link revoked!"]).
Proof.
  intros A. unfold revoke_link, bind, files_update_one.
  rewrite A, Z.eqb_refl. simpl.
  destruct (Files.update_one _ c) as [n c']. reflexivity.
Qed.

Lemma revoke_link_not_admin update context c :
  id (from_user (callback_query update)) <> ADMIN_ID ->
  revoke_link ADMIN_ID update context c
  = (Ok tt, c, [answer; edit_message_text "Only admin can revoke."]).
Proof.
  intros A. unfold revoke_link, bind.
  apply Z.eqb_neq in A. rewrite A. reflexivity.
Qed.

Lemma revoke_link_files update context c :
  files_of (revoke_link ADMIN_ID update context c) = c
  \/ exists fid,
       files_of (revoke_link ADMIN_ID update context c)
       = snd (Files.update_one fid c).
Proof.
  destruct (Z.eq_dec (id (from_user (callback_query update))) ADMIN_ID) as [A|A].
  - right. eexists. now rewrite revoke_link_admin.
  - left. now rewrite revoke_link_not_admin.
Qed.

(** A handler run leaves the collection as it was, appends one unrevoked
    document, or sets the flag of one first match. *)
Lemma step_cases c c' :
  step ADMIN_ID FORCE_SUB_CHANNELS DELETE_TIME_MINUTES globals c c' ->
  c' = c
  \/ (exists fid link now, c' = Files.insert_one (new_file_doc fid link now) c)
  \/ (exists fid, c' = snd (Files.update_one fid c)).
Proof.
  intros H. inversion H; subst; clear H.
  - left. apply start_files.
  - left. apply upload_files.
  - destruct (handle_media_files update context now c) as [E|[fid [link E]]].
    + now left.
    + right; left. now exists fid, link, now.
  - destruct (revoke_link_files update context c) as [E|[fid E]].
    + now left.
    + right; right. now exists fid.
  - now left.
Qed.

Lemma step_keeps_revoked fid c c' :
  step ADMIN_ID FORCE_SUB_CHANNELS DELETE_TIME_MINUTES globals c c' ->
  resolves_revoked fid c -> resolves_revoked fid c'.
Proof.
  intros H R.
  destruct (step_cases _ _ H) as [->|[[f [l [n ->]]]|[f ->]]].
  - exact R.
  - now apply insert_one_keeps_revoked.
  - now apply update_one_keeps_revoked.
Qed.

Lemma steps_keep_revoked fid c c' :
  steps ADMIN_ID FORCE_SUB_CHANNELS DELETE_TIME_MINUTES globals c c' ->
  resolves_revoked fid c -> resolves_revoked fid c'.
Proof.
  induction 1 as [c|c1 c2 c3 H12 _ IH]; intros R.
  - exact R.
  - apply IH. exact (step_keeps_revoked _ _ _ H12 R).
Qed.

(** No handler run takes the flag off a document, moves it or changes its
    token. *)
Lemma step_flag_stays c c' i d :
  step ADMIN_ID FORCE_SUB_CHANNELS DELETE_TIME_MINUTES globals c c' ->
  nth_error c i = Some d -> Files.revoked d = Some true ->
  exists d', nth_error c' i = Some d'
             /\ Files.revoked d' = Some true
             /\ Files.file_id d' = Files.file_id d.
Proof.
  intros H N R.
  destruct (step_cases _ _ H) as [->|[[f [l [n ->]]]|[f ->]]].
  - now exists d.
  - exists d. split; [now apply insert_one_nth | now split].
  - destruct (update_one_nth f c i d N) as [E|E].
    + now exists d.
    + exists (Files.set_revoked d). now split.
Qed.

End Runs.

(** ** The membership gate *)

Lemma status_ok_iff (status : string) :
  status_ok status = true
  <-> In status ["member"; "administrator"; "creator"].
Proof.
  unfold status_ok. rewrite existsb_exists. split.
  - intros [x [I E]]. apply String.eqb_eq in E. now subst.
  - intros I. exists status. split; [exact I | apply String.eqb_refl].
Qed.

Lemma satisfies_iff tg user_id channel :
  satisfies tg user_id channel = true <-> satisfied tg user_id channel.
Proof.
  unfold satisfies, satisfied. split.
  - destruct (tg channel user_id) as [status|e]; [|discriminate].
    intros H. exists status. split; [reflexivity | now apply status_ok_iff].
  - intros [status [-> I]]. now apply status_ok_iff.
Qed.

Lemma gate_iff tg user_id channels :
  gate tg user_id channels = true
  <-> Forall (satisfied tg user_id) channels.
Proof.
  unfold gate. rewrite forallb_forall, Forall_forall.
  split; intros H x I; apply satisfies_iff; now apply H.
Qed.

(** The loop stops at the first channel that is not satisfied. *)
Lemma queried_stops tg user_id pre channel post :
  Forall (satisfied tg user_id) pre ->
  ~ satisfied tg user_id channel ->
  queried tg user_id (pre ++ channel :: post) = (pre ++ [channel])%list
  /\ gate tg user_id (pre ++ channel :: post) = false.
Proof.
  intros P N.
  assert (S : satisfies tg user_id channel = false).
  { destruct (satisfies tg user_id channel) eqn:E; [|reflexivity].
    elim N. now apply satisfies_iff. }
  induction P as [|x pre Hx _ IH]; simpl.
  - rewrite S. now split.
  - apply satisfies_iff in Hx. rewrite Hx.
    destruct IH as [-> IH]. split; [reflexivity | exact IH].
Qed.

Lemma queried_all tg user_id channels :
  Forall (satisfied tg user_id) channels ->
  queried tg user_id channels = channels.
Proof.
  induction 1 as [|x l Hx _ IH]; simpl.
  - reflexivity.
  - apply satisfies_iff in Hx. now rewrite Hx, IH.
Qed.

(** C3. [is_subscribed] answers True exactly when every configured channel
    reports member, administrator or creator for the user; any other status
    or a failed query makes it False; it asks channel by channel in
    configuration order and stops at the first one that is not satisfied;
    with no channel configured it answers True.  It never raises and does
    not touch the collection. *)
Theorem C3_is_subscribed_all_or_denied
    (FORCE_SUB_CHANNELS : list string) (tg : Transport)
    (update : Update) (context : Context) (c : Collection) :
  let user_id := id (effective_user update) in
  let out := is_subscribed FORCE_SUB_CHANNELS tg update context c in
  (exists b,
      res_of out = Ok b
      /\ (b = true <-> Forall (satisfied tg user_id) FORCE_SUB_CHANNELS))
  /\ files_of out = c
  /\ (forall pre channel post,
         FORCE_SUB_CHANNELS = (pre ++ channel :: post)%list ->
         Forall (satisfied tg user_id) pre ->
         ~ satisfied tg user_id channel ->
         res_of out = Ok false
         /\ calls_of out
            = map (fun ch => get_chat_member ch user_id) (pre ++ [channel]))
  /\ (Forall (satisfied tg user_id) FORCE_SUB_CHANNELS ->
      calls_of out
      = map (fun ch => get_chat_member ch user_id) FORCE_SUB_CHANNELS)
  /\ (FORCE_SUB_CHANNELS = [] -> res_of out = Ok true).
Proof.
  intros user_id out. subst out. rewrite is_subscribed_run. fold user_id.
  unfold res_of, files_of, calls_of, gate_calls. cbn [fst snd].
  split; [|split; [|split; [|split]]].
  - exists (gate tg user_id FORCE_SUB_CHANNELS).
    split; [reflexivity | apply gate_iff].
  - reflexivity.
  - intros pre channel post E P N.
    destruct (queried_stops tg user_id pre channel post P N) as [Q G].
    rewrite E, Q, G. now split.
  - intros A. now rewrite queried_all.
  - intros ->. reflexivity.
Qed.

(** One denied and one errored check, run. *)
Example is_subscribed_stops_at_second :
  is_subscribed ["@a"; "@b"; "@c"]
    (fun channel _ =>
       if String.eqb channel "@a" then Ok "creator"
       else if String.eqb channel "@b" then Raise (TelegramError "timeout")
       else Ok "member")
    (update_of reader no_media "") (command []) []
  = (Ok false, [], [get_chat_member "@a" 2; get_chat_member "@b" 2]).
Proof. reflexivity. Qed.

(** ** Redemption *)

(** The gate only queries memberships: it sends nothing and touches no
    document. *)
Lemma gate_calls_filtered (f : effect -> bool) tg user_id channels :
  (forall channel, f (get_chat_member channel user_id) = false) ->
  filter f (gate_calls tg user_id channels) = [].
Proof.
  intros F. unfold gate_calls.
  induction (queried tg user_id channels) as [|x l IH]; simpl.
  - reflexivity.
  - now rewrite F.
Qed.

Lemma filter_after_gate (f : effect -> bool) tg user_id channels es :
  (forall channel, f (get_chat_member channel user_id) = false) ->
  filter f (gate_calls tg user_id channels ++ es) = filter f es.
Proof.
  intros F. now rewrite filter_app, gate_calls_filtered.
Qed.

Lemma is_subscribed_denied FORCE_SUB_CHANNELS tg update context c :
  res_of (is_subscribed FORCE_SUB_CHANNELS tg update context c) = Ok false
  <-> gate tg (id (effective_user update)) FORCE_SUB_CHANNELS = false.
Proof.
  rewrite is_subscribed_run. unfold res_of. simpl.
  split; [now intros [= ->] | now intros ->].
Qed.

Lemma is_subscribed_allowed FORCE_SUB_CHANNELS tg update context c :
  res_of (is_subscribed FORCE_SUB_CHANNELS tg update context c) = Ok true
  <-> gate tg (id (effective_user update)) FORCE_SUB_CHANNELS = true.
Proof.
  rewrite is_subscribed_run. unfold res_of. simpl.
  split; [now intros [= ->] | now intros ->].
Qed.

Lemma in_after_gate (e : effect) tg user_id channels es :
  is_membership_query e = false ->
  In e (gate_calls tg user_id channels ++ es) -> In e es.
Proof.
  intros Q I. apply in_app_or in I. destruct I as [I|I]; [|exact I].
  unfold gate_calls in I. apply in_map_iff in I.
  destruct I as [x [<- _]]. discriminate.
Qed.

(** On an update that carries a message, a denied gate check ends in the
    subscription prompt, with a button for every configured channel and no
    lookup. *)
Lemma start_denied_on_message FORCE_SUB_CHANNELS tg update context c msg :
  message update = Some msg ->
  gate tg (id (effective_user update)) FORCE_SUB_CHANNELS = false ->
  start FORCE_SUB_CHANNELS tg update context c
  = (Ok tt, c,
     (gate_calls tg (id (effective_user update)) FORCE_SUB_CHANNELS
      ++ [reply_text "Please subscribe to all our channels to use this bot."
            (subscribe_keyboard FORCE_SUB_CHANNELS)])%list)
  /\ (forall channel,
         In channel FORCE_SUB_CHANNELS ->
         In [{| text := "Subscribe to " ++ channel;
                url := Some ("https://t.me/" ++ Py.slice_from_1 channel);
                callback_data := None |}]
            (subscribe_keyboard FORCE_SUB_CHANNELS)).
Proof.
  intros Ms G. split.
  - rewrite (start_denied _ _ _ _ _ G).
    now rewrite (reply_run_message _ _ _ _ Ms).
  - intros channel I. unfold subscribe_keyboard.
    apply (in_map (fun ch => [subscribe_button ch])) in I. exact I.
Qed.

(** C9. A redemption that arrives as an edited message has no
    [update.message]: when its gate check answers Denied, [start] raises
    AttributeError at the reply of line 57 after the membership queries, so
    no subscription prompt is sent, where the claim has every denied
    request end in the prompt.  The collection is not read on this path
    either. *)
Theorem C9_denied_edit_gets_no_prompt
    (FORCE_SUB_CHANNELS : list string) (tg : Transport)
    (update : Update) (context : Context) (c : Collection) :
  message update = None ->
  res_of (is_subscribed FORCE_SUB_CHANNELS tg update context c) = Ok false ->
  let out := start FORCE_SUB_CHANNELS tg update context c in
  out = (Raise (AttributeError "reply_text"), c,
         gate_calls tg (id (effective_user update)) FORCE_SUB_CHANNELS)
  /\ filter user_visible (calls_of out) = []
  /\ filter is_store_read (calls_of out) = [].
Proof.
  intros Ms D out. apply is_subscribed_denied in D. subst out.
  rewrite (start_denied _ _ _ _ _ D), (reply_run_no_message _ _ _ Ms).
  cbn [fst snd]. rewrite app_nil_r. unfold calls_of. cbn [snd].
  split; [reflexivity|].
  split; now apply gate_calls_filtered.
Qed.

Lemma C9_denied_edit_gets_no_prompt_witness :
  start ["@news"] everyone_left (edited_update_of reader)
    (command ["file_A"]) [new_file_doc "A" "l" 0]
  = (Raise (AttributeError "reply_text"), [new_file_doc "A" "l" 0],
     [get_chat_member "@news" 2]).
Proof.
  pose proof
    (C9_denied_edit_gets_no_prompt ["@news"] everyone_left
       (edited_update_of reader) (command ["file_A"])
       [new_file_doc "A" "l" 0] eq_refl eq_refl) as H.
  cbv zeta in H. destruct H as [H _]. exact H.
Defined.

(** The same request as a message: the prompt, and no lookup. *)
Example start_denied_message_run :
  start ["@news"; "@files"] everyone_left
    (update_of reader no_media "") (command ["file_A"])
    [new_file_doc "A" "https://t.me/file_bot?start=file_A" 0]
  = (Ok tt, [new_file_doc "A" "https://t.me/file_bot?start=file_A" 0],
     [get_chat_member "@news" 2;
      reply_text "Please subscribe to all our channels to use this bot."
        [[{| text := "Subscribe to @news"; url := Some "https://t.me/news";
             callback_data := None |}];
         [{| text := "Subscribe to @files"; url := Some "https://t.me/files";
             callback_data := None |}]]]).
Proof. reflexivity. Qed.

(** What the lookup comes to on an update that carries a message. *)
Lemma redeem_run_on_message update msg fid c :
  message update = Some msg ->
  redeem_run update fid c
  = (Ok tt,
     db_find_one fid ::
     match Files.find_one fid c with
     | Some d =>
         if negb (match Files.revoked d with Some b => b | None => false end)
         then [reply_text "Accessing file..." [];
               send_document (id (effective_user update)) (Files.file_id d)]
         else [reply_text "Link expired or invalid." []]
     | None => [reply_text "Link expired or invalid." []]
     end).
Proof.
  intros Ms. unfold redeem_run, reply_run. rewrite Ms.
  destruct (Files.find_one fid c) as [d|]; [|reflexivity].
  destruct (Files.revoked d) as [[|]|]; reflexivity.
Qed.

(** What it comes to on an update without a message: the lookup, then
    AttributeError at the first reply; nothing is sent. *)
Lemma redeem_run_no_message update fid c :
  message update = None ->
  redeem_run update fid c
  = (Raise (AttributeError "reply_text"), [db_find_one fid]).
Proof.
  intros Ms. unfold redeem_run, reply_run. rewrite Ms.
  destruct (Files.find_one fid c) as [d|]; [|reflexivity].
  destruct (Files.revoked d) as [[|]|]; reflexivity.
Qed.

(** For a user who passes the gate and updates that carry a message, a
    redemption whose extracted token has no document and one whose
    extracted token's document is revoked end the same way: the one message
    "Link expired or invalid.", nothing written, nothing delivered. *)
Lemma unknown_and_revoked_alike_on_messages
    (FORCE_SUB_CHANNELS : list string)
    (tg1 tg2 : Transport) (update1 update2 : Update) (msg1 msg2 : Message)
    (context1 context2 : Context) (c1 c2 : Collection)
    (arg1 arg2 : string) (rest1 rest2 : list string) (d : FileDoc) :
  message update1 = Some msg1 -> message update2 = Some msg2 ->
  gate tg1 (id (effective_user update1)) FORCE_SUB_CHANNELS = true ->
  gate tg2 (id (effective_user update2)) FORCE_SUB_CHANNELS = true ->
  args context1 = arg1 :: rest1 -> Py.startswith arg1 "file_" = true ->
  args context2 = arg2 :: rest2 -> Py.startswith arg2 "file_" = true ->
  Files.find_one (Py.replace_empty arg1 "file_") c1 = None ->
  Files.find_one (Py.replace_empty arg2 "file_") c2 = Some d ->
  Files.revoked d = Some true ->
  let out1 := start FORCE_SUB_CHANNELS tg1 update1 context1 c1 in
  let out2 := start FORCE_SUB_CHANNELS tg2 update2 context2 c2 in
  filter user_visible (calls_of out1)
  = [reply_text "Link expired or invalid." []]
  /\ filter user_visible (calls_of out2) = filter user_visible (calls_of out1)
  /\ res_of out1 = Ok tt /\ res_of out2 = Ok tt
  /\ files_of out1 = c1 /\ files_of out2 = c2
  /\ filter is_store_write (calls_of out1) = []
  /\ filter is_store_write (calls_of out2) = []
  /\ filter is_delivery (calls_of out1) = []
  /\ filter is_delivery (calls_of out2) = [].
Proof.
  intros M1 M2 G1 G2 A1 P1 A2 P2 F1 F2 R out1 out2. subst out1 out2.
  rewrite (start_redeem _ _ _ _ _ _ _ G1 A1 P1).
  rewrite (start_redeem _ _ _ _ _ _ _ G2 A2 P2).
  rewrite (redeem_run_on_message _ _ _ _ M1).
  rewrite (redeem_run_on_message _ _ _ _ M2).
  unfold res_of, files_of, calls_of. cbn [fst snd].
  rewrite F1, F2, R. cbn [negb].
  rewrite !filter_after_gate by reflexivity.
  repeat split.
Qed.

(** C4. The extracted token is not the carried one when the token
    contains file_: with the document of afile_b revoked and a document ab
    in the collection, the redemption of file_afile_b by a subscribed user
    looks up ab and delivers it, while the redemption of a token without
    document is answered "Link expired or invalid.": the two requests of
    the claim end differently and one delivers.  On an edited message
    neither request is answered at all: [start] raises after the lookup. *)
Theorem C4_revoked_marker_token_is_served :
  let c := [Files.set_revoked (new_file_doc "afile_b" "l1" 0);
            new_file_doc "ab" "l2" 0] in
  Files.find_one "zzz" c = None
  /\ Files.find_one "afile_b" c
     = Some (Files.set_revoked (new_file_doc "afile_b" "l1" 0))
  /\ start ["@news"] everyone_member (update_of reader no_media "")
       (command ["file_zzz"]) c
     = (Ok tt, c,
        [get_chat_member "@news" 2; db_find_one "zzz";
         reply_text "Link expired or invalid." []])
  /\ start ["@news"] everyone_member (update_of reader no_media "")
       (command ["file_afile_b"]) c
     = (Ok tt, c,
        [get_chat_member "@news" 2; db_find_one "ab";
         reply_text "Accessing file..." []; send_document 2 "ab"])
  /\ start ["@news"] everyone_member (edited_update_of reader)
       (command ["file_zzz"]) c
     = (Raise (AttributeError "reply_text"), c,
        [get_chat_member "@news" 2; db_find_one "zzz"]).
Proof. cbv zeta. repeat split. Qed.

(** For a user who passes the gate, an update that carries a message and a
    token whose extraction finds a document: a document without the
    [revoked] field is treated as not revoked, the file is announced and
    sent; the redemption is rejected exactly when the document carries
    [revoked] = True. *)
Lemma missing_flag_is_not_revoked_on_messages
    (FORCE_SUB_CHANNELS : list string) (tg : Transport)
    (update : Update) (msg : Message) (context : Context) (c : Collection)
    (arg0 : string) (rest : list string) (d : FileDoc) :
  message update = Some msg ->
  gate tg (id (effective_user update)) FORCE_SUB_CHANNELS = true ->
  args context = arg0 :: rest -> Py.startswith arg0 "file_" = true ->
  Files.find_one (Py.replace_empty arg0 "file_") c = Some d ->
  let out := start FORCE_SUB_CHANNELS tg update context c in
  let delivered :=
    [reply_text "Accessing file..." [];
     send_document (id (effective_user update)) (Files.file_id d)] in
  (Files.revoked d = None -> filter user_visible (calls_of out) = delivered)
  /\ (Files.revoked d = Some false ->
      filter user_visible (calls_of out) = delivered)
  /\ (Files.revoked d = Some true ->
      filter user_visible (calls_of out)
      = [reply_text "Link expired or invalid." []])
  /\ res_of out = Ok tt /\ files_of out = c.
Proof.
  intros Ms G A P F out delivered. subst out delivered.
  rewrite (start_redeem _ _ _ _ _ _ _ G A P).
  rewrite (redeem_run_on_message _ _ _ _ Ms).
  unfold res_of, files_of, calls_of. cbn [fst snd].
  rewrite F. rewrite filter_after_gate by reflexivity.
  split; [|split; [|split; [|split]]];
    try (intros ->; reflexivity); reflexivity.
Qed.

(** C10. A document without the [revoked] field is not always delivered
    to a subscribed user who redeems its token: sent as an edited message,
    the redemption of file_A finds the document and then raises
    AttributeError at the reply of line 65, before [send_document]; and for
    the token afile_b the payload file_afile_b is looked up as ab, which
    has no document, and is answered "Link expired or invalid.".  The same
    flagless document A, redeemed in a message, is delivered. *)
Theorem C10_flagless_document_not_always_served :
  let flagless fid :=
    {| Files.file_id := fid; Files.link := "l";
       Files.revoked := None; Files.timestamp := 0 |} in
  start ["@news"] everyone_member (edited_update_of reader)
    (command ["file_A"]) [flagless "A"]
  = (Raise (AttributeError "reply_text"), [flagless "A"],
     [get_chat_member "@news" 2; db_find_one "A"])
  /\ start ["@news"] everyone_member (update_of reader no_media "")
       (command ["file_afile_b"]) [flagless "afile_b"]
     = (Ok tt, [flagless "afile_b"],
        [get_chat_member "@news" 2; db_find_one "ab";
         reply_text "Link expired or invalid." []])
  /\ start ["@news"] everyone_member (update_of reader no_media "")
       (command ["file_A"]) [flagless "A"]
     = (Ok tt, [flagless "A"],
        [get_chat_member "@news" 2; db_find_one "A";
         reply_text "Accessing file..." []; send_document 2 "A"]).
Proof. cbv zeta. repeat split. Qed.

(** ** Admin actions *)

(** For an identity other than the administrator and an update that carries
    a message, the upload action answers "Only admin can upload files.",
    the upload command "Only admin can upload.", and the revoke action
    edits the message to "Only admin can revoke."; none writes to the
    collection. *)
Lemma non_admin_changes_nothing_on_messages
    (ADMIN_ID DELETE_TIME_MINUTES : Z) (globals : namespace)
    (update : Update) (msg : Message) (context : Context) (now : Z)
    (c : Collection) :
  message update = Some msg ->
  id (effective_user update) <> ADMIN_ID ->
  id (from_user (callback_query update)) <> ADMIN_ID ->
  handle_media ADMIN_ID DELETE_TIME_MINUTES globals update context now c
  = (Ok tt, c, [reply_text "Only admin can upload files." []])
  /\ revoke_link ADMIN_ID update context c
     = (Ok tt, c, [answer; edit_message_text "Only admin can revoke."])
  /\ upload ADMIN_ID update context c
     = (Ok tt, c, [reply_text "Only admin can upload." []]).
Proof.
  intros Ms U Q. split; [|split].
  - rewrite (handle_media_not_admin _ _ _ _ _ _ _ U).
    now rewrite (reply_run_message _ _ _ _ Ms).
  - now apply revoke_link_not_admin.
  - unfold upload, message_reply_text.
    apply Z.eqb_neq in U. now rewrite U, Ms.
Qed.

(** C7. A media message that is edited reaches [handle_media] without
    [update.message]: for an identity other than the administrator the
    denial of line 82 then raises AttributeError and nothing is sent, where
    the claim has a fixed denial message for every such identity.  The
    same holds for the upload command sent as an edit.  The collection is
    left as it was, and the revoke action does send its denial. *)
Theorem C7_non_admin_edit_gets_no_denial
    (ADMIN_ID DELETE_TIME_MINUTES : Z) (globals : namespace)
    (update : Update) (context : Context) (now : Z) (c : Collection) :
  message update = None ->
  id (effective_user update) <> ADMIN_ID ->
  id (from_user (callback_query update)) <> ADMIN_ID ->
  handle_media ADMIN_ID DELETE_TIME_MINUTES globals update context now c
  = (Raise (AttributeError "reply_text"), c, [])
  /\ upload ADMIN_ID update context c
     = (Raise (AttributeError "reply_text"), c, [])
  /\ revoke_link ADMIN_ID update context c
     = (Ok tt, c, [answer; edit_message_text "Only admin can revoke."]).
Proof.
  intros Ms U Q. split; [|split].
  - rewrite (handle_media_not_admin _ _ _ _ _ _ _ U).
    now rewrite (reply_run_no_message _ _ _ Ms).
  - unfold upload, message_reply_text.
    apply Z.eqb_neq in U. now rewrite U, Ms.
  - now apply revoke_link_not_admin.
Qed.

Lemma C7_non_admin_edit_gets_no_denial_witness :
  handle_media 1 30 bot_py_globals (edited_update_of reader) (command []) 0
    [new_file_doc "A" "l" 0]
  = (Raise (AttributeError "reply_text"), [new_file_doc "A" "l" 0], []).
Proof.
  assert (N : 2%Z <> 1%Z) by lia.
  pose proof
    (C7_non_admin_edit_gets_no_denial 1 30 bot_py_globals
       (edited_update_of reader) (command []) 0
       [new_file_doc "A" "l" 0] eq_refl N N) as H.
  destruct H as [H _]. exact H.
Defined.

(** The same upload as a message: the denial, and nothing written. *)
Example handle_media_non_admin_message_run :
  handle_media 1 30 bot_py_globals
    (update_of reader (a_document "A") "revoke_A") (command []) 0
    [new_file_doc "A" "l" 0]
  = (Ok tt, [new_file_doc "A" "l" 0],
     [reply_text "Only admin can upload files." []]).
Proof. reflexivity. Qed.

(** The module binds no [context]: [generate_link] raises on every call. *)
Lemma generate_link_as_written (file_id : string) :
  generate_link bot_py_globals file_id = Raise (NameError "context").
Proof. reflexivity. Qed.

(** The photo branch takes the last size of the message. *)
Example media_file_id_photo :
  media_file_id
    {| message_id := 7; document := None;
       photo := ["small"; "medium"; "large"]; video := Some "v" |}
  = Some "large".
Proof. reflexivity. Qed.

(** C1. As the module is written, an upload by the administrator of a
    document, photo or video does not reach the insert: [generate_link]
    raises NameError for its free name [context], so the handler ends in
    that exception with the collection unchanged and nothing sent, where
    the claim has one new document and a reply with link and revoke
    button. *)
Theorem C1_upload_raises_before_insert
    (ADMIN_ID DELETE_TIME_MINUTES : Z)
    (update : Update) (context : Context) (now : Z) (c : Collection)
    (msg : Message) (fid : string) :
  id (effective_user update) = ADMIN_ID ->
  message update = Some msg ->
  media_file_id msg = Some fid ->
  handle_media ADMIN_ID DELETE_TIME_MINUTES bot_py_globals
    update context now c
  = (Raise (NameError "context"), c, []).
Proof.
  intros A Ms F.
  apply (handle_media_link_raises _ _ _ _ _ _ _ msg fid); try assumption.
  apply generate_link_as_written.
Qed.

Lemma C1_upload_raises_before_insert_witness :
  handle_media 1 30 bot_py_globals
    (update_of admin (a_document "A") "") (command []) 0 []
  = (Raise (NameError "context"), [], []).
Proof.
  exact (C1_upload_raises_before_insert 1 30
           (update_of admin (a_document "A") "") (command []) 0 []
           (a_document "A") "A" eq_refl eq_refl eq_refl).
Defined.

(** With [context] bound for [generate_link], the same upload inserts one
    unrevoked document and answers with the link and the revoke button. *)
Example handle_media_with_context_bound :
  handle_media 1 30 globals_with_context
    (update_of admin (a_document "A") "") (command []) 0 []
  = (Ok tt,
     [new_file_doc "A" "https://t.me/file_bot?start=file_A" 0],
     [db_insert_one (new_file_doc "A" "https://t.me/file_bot?start=file_A" 0);
      reply_text
        "File uploaded! Share this link: https://t.me/file_bot?start=file_A"
        [[{| text := "Revoke Link"; url := None;
             callback_data := Some "revoke_A" |}]];
      run_once 1800 7]).
Proof. reflexivity. Qed.

(** ** Token extraction *)

(** C6. [replace] deletes the marker wherever it occurs, not only in front:
    for the token afile_b the payload file_afile_b is resolved as ab, and
    for the token arevoke_b the payload revoke_arevoke_b revokes ab, where
    the claim has the payload with only its leading marker removed. *)
Theorem C6_marker_removed_inside_token :
  Py.replace_empty "file_afile_b" "file_" = "ab"
  /\ Py.replace_empty "revoke_arevoke_b" "revoke_" = "ab"
  /\ start [] everyone_member (update_of reader no_media "")
       (command ["file_afile_b"])
       [new_file_doc "afile_b" "l1" 0; new_file_doc "ab" "l2" 0]
     = (Ok tt,
        [new_file_doc "afile_b" "l1" 0; new_file_doc "ab" "l2" 0],
        [db_find_one "ab"; reply_text "Accessing file..." [];
         send_document 2 "ab"])
  /\ revoke_link 1 (update_of admin no_media "revoke_arevoke_b") (command [])
       [new_file_doc "arevoke_b" "l1" 0; new_file_doc "ab" "l2" 0]
     = (Ok tt,
        [new_file_doc "arevoke_b" "l1" 0;
         Files.set_revoked (new_file_doc "ab" "l2" 0)],
        [answer; db_update_one "ab"; edit_message_text "Link revoked!"]).
Proof. repeat split. Qed.

(** In general the token handed to the registry is the payload's token with
    every occurrence of the marker deleted. *)
Lemma start_token_of_payload (token : string) :
  Py.replace_empty ("file_" ++ token) "file_"
  = Py.replace_empty token "file_".
Proof. apply (replace_empty_marker "f" "ile_"). Qed.

Lemma revoke_token_of_payload (token : string) :
  Py.replace_empty ("revoke_" ++ token) "revoke_"
  = Py.replace_empty token "revoke_".
Proof. apply (replace_empty_marker "r" "evoke_"). Qed.

(** A token that does not contain the marker is extracted as the claim
    has it. *)
Lemma start_token_marker_free (token : string) :
  marker_free "file_" token = true ->
  Py.replace_empty ("file_" ++ token) "file_" = token.
Proof.
  intros F. rewrite start_token_of_payload.
  now apply remove_from_marker_free.
Qed.

Lemma revoke_token_marker_free (token : string) :
  marker_free "revoke_" token = true ->
  Py.replace_empty ("revoke_" ++ token) "revoke_" = token.
Proof.
  intros F. rewrite revoke_token_of_payload.
  now apply remove_from_marker_free.
Qed.

(** ** Revocation *)

Lemma set_revoked_revoked (d : FileDoc) :
  Files.revoked d = Some true -> Files.set_revoked d = d.
Proof. destruct d as [f l r t]. simpl. now intros ->. Qed.

(** Revoking where the first match is already revoked changes nothing. *)
Lemma update_one_already_revoked (fid : string) (c : Collection) :
  resolves_revoked fid c -> snd (Files.update_one fid c) = c.
Proof.
  unfold resolves_revoked, Files.find_one.
  induction c as [|x c IH]; simpl.
  - intros [d [H _]]. discriminate.
  - intros [d [H R]]. destruct (Files.has_file_id fid x).
    + injection H as ->. simpl. now rewrite set_revoked_revoked.
    + assert (E : snd (Files.update_one fid c) = c)
        by (apply IH; now exists d).
      destruct (Files.update_one fid c) as [n c']. simpl in *. now rewrite E.
Qed.

Lemma update_one_idempotent (fid : string) (c : Collection) :
  snd (Files.update_one fid (snd (Files.update_one fid c)))
  = snd (Files.update_one fid c).
Proof.
  destruct (Files.find_one fid c) as [d|] eqn:F.
  - apply update_one_already_revoked.
    exists (Files.set_revoked d). split; [|reflexivity].
    now apply update_one_found.
  - now rewrite (update_one_not_found fid c F), (update_one_not_found fid c F).
Qed.

(** C8, the claim refuted: the administrator revoking a token that has no
    document gets the same confirmation, "Link revoked!", after the same
    calls, as when the document exists; the matched count of the update is
    dropped, so the not-found case is not reported. *)
Lemma C8_not_found_is_confirmed_too :
  revoke_link 1 (update_of admin no_media "revoke_A") (command []) []
  = (Ok tt, [], [answer; db_update_one "A"; edit_message_text "Link revoked!"])
  /\ calls_of (revoke_link 1 (update_of admin no_media "revoke_A")
                 (command []) [new_file_doc "A" "l" 0])
     = calls_of (revoke_link 1 (update_of admin no_media "revoke_A")
                   (command []) [])
  /\ fst (Files.update_one "A" []) = 0%nat
  /\ fst (Files.update_one "A" [new_file_doc "A" "l" 0]) = 1%nat.
Proof. repeat split. Qed.

(** C8, amended.  The update behind a revoke returns a matched count that
    tells found (1) from not found (0); it sets [revoked] on the first
    document with the token when there is one, changes nothing when there
    is none or when that document is already revoked, and run twice does
    what it does once.  [revoke_link] by the administrator never raises,
    drops the count and confirms with "Link revoked!" in every case. *)
Theorem C8_revoke_sets_flag_and_always_confirms
    (ADMIN_ID : Z) (update : Update) (context : Context) (c : Collection) :
  let fid := Py.replace_empty (data (callback_query update)) "revoke_" in
  let out := revoke_link ADMIN_ID update context c in
  res_of out = Ok tt
  /\ (id (from_user (callback_query update)) = ADMIN_ID ->
      files_of out = snd (Files.update_one fid c)
      /\ calls_of out
         = [answer; db_update_one fid; edit_message_text "Link revoked!"])
  /\ (forall d, Files.find_one fid c = Some d ->
        fst (Files.update_one fid c) = 1%nat
        /\ Files.find_one fid (snd (Files.update_one fid c))
           = Some (Files.set_revoked d))
  /\ (Files.find_one fid c = None ->
        fst (Files.update_one fid c) = 0%nat
        /\ snd (Files.update_one fid c) = c)
  /\ (resolves_revoked fid c -> snd (Files.update_one fid c) = c)
  /\ snd (Files.update_one fid (snd (Files.update_one fid c)))
     = snd (Files.update_one fid c)
  /\ files_of (revoke_link ADMIN_ID update context (files_of out))
     = files_of out.
Proof.
  intros fid out. subst out.
  split; [|split; [|split; [|split; [|split; [|split]]]]].
  - destruct (Z.eq_dec (id (from_user (callback_query update))) ADMIN_ID)
      as [A|A].
    + now rewrite (revoke_link_admin _ _ _ _ A).
    + now rewrite (revoke_link_not_admin _ _ _ _ A).
  - intros A. rewrite (revoke_link_admin _ _ _ _ A). now split.
  - intros d F. rewrite update_one_matched, F.
    split; [reflexivity | now apply update_one_found].
  - intros F. rewrite update_one_matched, F.
    split; [reflexivity | now apply update_one_not_found].
  - apply update_one_already_revoked.
  - apply update_one_idempotent.
  - destruct (Z.eq_dec (id (from_user (callback_query update))) ADMIN_ID)
      as [A|A].
    + rewrite !(revoke_link_admin _ _ _ _ A). unfold files_of. cbn [fst snd].
      apply update_one_idempotent.
    + now rewrite !(revoke_link_not_admin _ _ _ _ A).
Qed.

(** ** The module as written never adds a document *)

Lemma update_one_keeps_fields (fid : string) (c : Collection) :
  map Files.file_id (snd (Files.update_one fid c)) = map Files.file_id c
  /\ map Files.link (snd (Files.update_one fid c)) = map Files.link c
  /\ map Files.timestamp (snd (Files.update_one fid c))
     = map Files.timestamp c.
Proof.
  induction c as [|x c [IH1 [IH2 IH3]]]; simpl.
  - now repeat split.
  - destruct (Files.has_file_id fid x); [now repeat split|].
    destruct (Files.update_one fid c) as [n c']. simpl in *.
    now rewrite IH1, IH2, IH3.
Qed.

Lemma find_one_none_iff (fid : string) (c : Collection) :
  Files.find_one fid c = None <-> ~ In fid (map Files.file_id c).
Proof.
  unfold Files.find_one. induction c as [|x c IH]; simpl.
  - tauto.
  - unfold Files.has_file_id at 1.
    destruct (String.eqb_spec (Files.file_id x) fid) as [E|E].
    + split; [discriminate | intros N; elim N; now left].
    + rewrite IH. tauto.
Qed.

Lemma count_file_id_ids (fid : string) (c : Collection) :
  count_file_id fid c
  = List.length (filter (fun x => String.eqb x fid) (map Files.file_id c)).
Proof.
  unfold count_file_id. induction c as [|x c IH]; simpl.
  - reflexivity.
  - unfold Files.has_file_id at 1.
    destruct (String.eqb (Files.file_id x) fid); simpl; now rewrite IH.
Qed.

Lemma count_file_id_by_ids (fid : string) (c c' : Collection) :
  map Files.file_id c' = map Files.file_id c ->
  count_file_id fid c' = count_file_id fid c.
Proof. intros E. now rewrite !count_file_id_ids, E. Qed.

(** The module binds no [context]: [generate_link] raises on every call,
    so no run of [handle_media] builds a link. *)
Lemma handle_media_as_written_files ADMIN_ID DELETE_TIME_MINUTES
    update context now c :
  files_of (handle_media ADMIN_ID DELETE_TIME_MINUTES bot_py_globals
              update context now c) = c.
Proof.
  destruct (handle_media_cases ADMIN_ID DELETE_TIME_MINUTES bot_py_globals
              update context now c)
    as [[r [es [E _]]]|[msg [fid [link [_ [_ [_ [L _]]]]]]]].
  - now rewrite E.
  - discriminate L.
Qed.

Lemma step_as_written ADMIN_ID FORCE_SUB_CHANNELS DELETE_TIME_MINUTES c c' :
  step ADMIN_ID FORCE_SUB_CHANNELS DELETE_TIME_MINUTES bot_py_globals c c' ->
  c' = c \/ exists fid, c' = snd (Files.update_one fid c).
Proof.
  intros H. inversion H; subst; clear H.
  - left. apply start_files.
  - left. apply upload_files.
  - left. apply handle_media_as_written_files.
  - destruct (revoke_link_files ADMIN_ID update context c) as [E|[fid E]].
    + now left.
    + right. now exists fid.
  - now left.
Qed.

Lemma steps_as_written_keep_fields ADMIN_ID FORCE_SUB_CHANNELS
    DELETE_TIME_MINUTES c c' :
  steps ADMIN_ID FORCE_SUB_CHANNELS DELETE_TIME_MINUTES bot_py_globals c c' ->
  map Files.file_id c' = map Files.file_id c
  /\ map Files.link c' = map Files.link c
  /\ map Files.timestamp c' = map Files.timestamp c.
Proof.
  induction 1 as [c|c1 c2 c3 H12 _ [I1 [I2 I3]]]; [now repeat split|].
  destruct (step_as_written _ _ _ _ _ H12) as [->|[fid ->]].
  - now repeat split.
  - destruct (update_one_keeps_fields fid c1) as [U1 [U2 U3]].
    repeat split; congruence.
Qed.

(** ** Tokens and documents *)

(** C5. As the module is written, an accepted upload performs no insert:
    two uploads of the same artifact by the administrator both end in the
    NameError of [generate_link] and leave the collection as it was, so
    the token has as many documents afterwards as before, where the claim
    has a fresh insert on every accepted upload.  Over any handler runs
    the number of documents of each token stays what it was. *)
Theorem C5_as_written_upload_inserts_nothing
    (ADMIN_ID DELETE_TIME_MINUTES : Z)
    (update1 update2 : Update) (context1 context2 : Context)
    (now1 now2 : Z) (c : Collection) (msg1 msg2 : Message) (fid : string) :
  id (effective_user update1) = ADMIN_ID ->
  id (effective_user update2) = ADMIN_ID ->
  message update1 = Some msg1 -> message update2 = Some msg2 ->
  media_file_id msg1 = Some fid -> media_file_id msg2 = Some fid ->
  let out1 :=
    handle_media ADMIN_ID DELETE_TIME_MINUTES bot_py_globals
      update1 context1 now1 c in
  let out2 :=
    handle_media ADMIN_ID DELETE_TIME_MINUTES bot_py_globals
      update2 context2 now2 (files_of out1) in
  out1 = (Raise (NameError "context"), c, [])
  /\ out2 = (Raise (NameError "context"), c, [])
  /\ count_file_id fid (files_of out2) = count_file_id fid c
  /\ (forall FORCE_SUB_CHANNELS c0 c' token,
         steps ADMIN_ID FORCE_SUB_CHANNELS DELETE_TIME_MINUTES
           bot_py_globals c0 c' ->
         count_file_id token c' = count_file_id token c0).
Proof.
  intros A1 A2 M1 M2 F1 F2 out1 out2.
  assert (E1 : out1 = (Raise (NameError "context"), c, [])).
  { subst out1.
    apply (handle_media_link_raises _ _ _ _ _ _ _ msg1 fid); try assumption.
    apply generate_link_as_written. }
  assert (E2 : out2 = (Raise (NameError "context"), c, [])).
  { subst out2. rewrite E1. unfold files_of. cbn [fst snd].
    apply (handle_media_link_raises _ _ _ _ _ _ _ msg2 fid); try assumption.
    apply generate_link_as_written. }
  split; [exact E1|]. split; [exact E2|]. split.
  - now rewrite E2.
  - intros FORCE_SUB_CHANNELS c0 c' token S.
    apply count_file_id_by_ids.
    now destruct (steps_as_written_keep_fields _ _ _ _ _ S) as [K _].
Qed.

Lemma C5_as_written_upload_inserts_nothing_witness :
  handle_media 1 30 bot_py_globals
    (update_of admin (a_document "A") "") (command []) 5
    (files_of (handle_media 1 30 bot_py_globals
                 (update_of admin (a_document "A") "") (command []) 0 []))
  = (Raise (NameError "context"), [], [])
  /\ count_file_id "A"
       (files_of
          (handle_media 1 30 bot_py_globals
             (update_of admin (a_document "A") "") (command []) 5
             (files_of (handle_media 1 30 bot_py_globals
                          (update_of admin (a_document "A") "")
                          (command []) 0 []))))
     = count_file_id "A" [].
Proof.
  pose proof
    (C5_as_written_upload_inserts_nothing 1 30
       (update_of admin (a_document "A") "")
       (update_of admin (a_document "A") "")
       (command []) (command []) 0 5 [] (a_document "A") (a_document "A")
       "A" eq_refl eq_refl eq_refl eq_refl eq_refl eq_refl) as H.
  cbv zeta in H. destruct H as [_ [H2 [H3 _]]]. split; [exact H2 | exact H3].
Defined.

Lemma has_file_id_new_file_doc (fid fid' link : string) (now : Z) :
  Files.has_file_id fid' (new_file_doc fid link now) = String.eqb fid fid'.
Proof. reflexivity. Qed.

(** ** Revocation is final *)

(** C2, the claim refuted.  After a revoke of A has succeeded, a redemption
    of A by a user who fails the gate ends in the subscription prompt, not
    in "Link expired or invalid.": the gate is checked first and the
    collection is not looked at. *)
Lemma C2_gate_denied_sees_prompt :
  let c1 :=
    files_of (revoke_link 1 (update_of admin no_media "revoke_A")
                (command []) [new_file_doc "A" "l" 0]) in
  let out :=
    start ["@news"] everyone_left (update_of reader no_media "")
      (command ["file_A"]) c1 in
  c1 = [Files.set_revoked (new_file_doc "A" "l" 0)]
  /\ calls_of out
     = [get_chat_member "@news" 2;
        reply_text "Please subscribe to all our channels to use this bot."
          [[{| text := "Subscribe to @news"; url := Some "https://t.me/news";
               callback_data := None |}]]]
  /\ filter user_visible (calls_of out)
     <> [reply_text "Link expired or invalid." []].
Proof.
  cbv zeta. split; [reflexivity|]. split; [reflexivity|].
  vm_compute. discriminate.
Qed.

(** No run of [start] on a token that resolves to a revoked document
    delivers anything, message or not, gate passed or not. *)
Lemma start_revoked_never_delivers FORCE_SUB_CHANNELS tg update context c
    arg0 rest :
  args context = arg0 :: rest ->
  Py.startswith arg0 "file_" = true ->
  resolves_revoked (Py.replace_empty arg0 "file_") c ->
  filter is_delivery
    (calls_of (start FORCE_SUB_CHANNELS tg update context c)) = [].
Proof.
  intros A P [d [F R]].
  destruct (gate tg (id (effective_user update)) FORCE_SUB_CHANNELS) eqn:G.
  - rewrite (start_redeem _ _ _ _ _ _ _ G A P).
    unfold calls_of, redeem_run, reply_run. cbn [snd].
    rewrite filter_after_gate by reflexivity.
    rewrite F, R. cbn [negb]. destruct (message update); reflexivity.
  - rewrite (start_denied _ _ _ _ _ G).
    unfold calls_of, reply_run. cbn [snd].
    rewrite filter_after_gate by reflexivity.
    destruct (message update); reflexivity.
Qed.

(** C2, amended.  Once the administrator's revoke of a token has found a
    document, then after any further handler runs (uploads included,
    whatever namespace [generate_link] sees): the token still resolves to a
    revoked document; a redemption that arrives as a message and whose
    extracted token is that token ends, for a user who passes the gate, in
    the one message "Link expired or invalid." and, for a user who fails
    the gate, in the subscription prompt; no redemption of that token,
    however it arrives, delivers anything or changes the collection.  No
    handler run takes the flag off a document, and an insert after the
    revoke does not change what the token resolves to. *)
Theorem C2_revoked_stays_revoked
    (ADMIN_ID : Z) (FORCE_SUB_CHANNELS : list string)
    (DELETE_TIME_MINUTES : Z) (globals : namespace)
    (update0 : Update) (context0 : Context) (c0 c1 : Collection)
    (token : string) (d0 : FileDoc) :
  id (from_user (callback_query update0)) = ADMIN_ID ->
  Py.replace_empty (data (callback_query update0)) "revoke_" = token ->
  Files.find_one token c0 = Some d0 ->
  steps ADMIN_ID FORCE_SUB_CHANNELS DELETE_TIME_MINUTES globals
    (files_of (revoke_link ADMIN_ID update0 context0 c0)) c1 ->
  resolves_revoked token c1
  /\ (forall tg update context arg0 rest,
         args context = arg0 :: rest ->
         Py.startswith arg0 "file_" = true ->
         Py.replace_empty arg0 "file_" = token ->
         let out := start FORCE_SUB_CHANNELS tg update context c1 in
         (forall msg,
             message update = Some msg ->
             gate tg (id (effective_user update)) FORCE_SUB_CHANNELS = true ->
             out = (Ok tt, c1,
                    (gate_calls tg (id (effective_user update))
                       FORCE_SUB_CHANNELS
                     ++ [db_find_one token;
                         reply_text "Link expired or invalid." []])%list)
             /\ filter user_visible (calls_of out)
                = [reply_text "Link expired or invalid." []])
         /\ (forall msg,
                message update = Some msg ->
                gate tg (id (effective_user update)) FORCE_SUB_CHANNELS
                = false ->
                filter user_visible (calls_of out)
                = [reply_text
                     "Please subscribe to all our channels to use this bot."
                     (subscribe_keyboard FORCE_SUB_CHANNELS)])
         /\ filter is_delivery (calls_of out) = []
         /\ files_of out = c1)
  /\ (forall d, resolves_revoked token (Files.insert_one d c1))
  /\ (forall c c' i d,
         step ADMIN_ID FORCE_SUB_CHANNELS DELETE_TIME_MINUTES globals c c' ->
         nth_error c i = Some d -> Files.revoked d = Some true ->
         exists d', nth_error c' i = Some d'
                    /\ Files.revoked d' = Some true
                    /\ Files.file_id d' = Files.file_id d).
Proof.
  intros A T F S.
  assert (R : resolves_revoked token c1).
  { apply (steps_keep_revoked _ _ _ _ _ _ _ S).
    rewrite (revoke_link_admin _ _ _ _ A), T. unfold files_of. cbn [fst snd].
    exists (Files.set_revoked d0). split; [|reflexivity].
    now apply update_one_found. }
  split; [exact R|]. split; [|split].
  - intros tg update context arg0 rest Ha P E out.
    split; [|split; [|split]].
    + intros msg Ms G.
      assert (Eo : out
                   = (Ok tt, c1,
                      (gate_calls tg (id (effective_user update))
                         FORCE_SUB_CHANNELS
                       ++ [db_find_one token;
                           reply_text "Link expired or invalid." []])%list)).
      { subst out.
        rewrite (start_redeem _ _ _ _ _ _ _ G Ha P), E.
        rewrite (redeem_run_on_message _ _ _ _ Ms).
        destruct R as [d [Fd Rd]]. now rewrite Fd, Rd. }
      split; [exact Eo|]. rewrite Eo. unfold calls_of. cbn [snd].
      now rewrite filter_after_gate.
    + intros msg Ms G. subst out.
      rewrite (start_denied _ _ _ _ _ G), (reply_run_message _ _ _ _ Ms).
      unfold calls_of. cbn [fst snd].
      now rewrite filter_after_gate.
    + subst out. apply (start_revoked_never_delivers _ _ _ _ _ _ _ Ha P).
      now rewrite E.
    + apply start_files.
  - intros d. now apply insert_one_keeps_revoked.
  - intros c c' i d St N Rv.
    exact (step_flag_stays _ _ _ _ _ _ _ _ St N Rv).
Qed.

(** A run after a revoke: A is revoked; then a reader
    redeems it, the administrator uploads A again (the upload raises, as the
    module is written) and revokes B; A still resolves to a revoked
    document. *)
Lemma C2_revoked_stays_revoked_witness :
  resolves_revoked "A"
    [Files.set_revoked (new_file_doc "A" "l" 0);
     Files.set_revoked (new_file_doc "B" "m" 1)]
  /\ start ["@news"] everyone_member (update_of reader no_media "")
       (command ["file_A"])
       [Files.set_revoked (new_file_doc "A" "l" 0);
        Files.set_revoked (new_file_doc "B" "m" 1)]
     = (Ok tt,
        [Files.set_revoked (new_file_doc "A" "l" 0);
         Files.set_revoked (new_file_doc "B" "m" 1)],
        [get_chat_member "@news" 2; db_find_one "A";
         reply_text "Link expired or invalid." []]).
Proof.
  assert (S : steps 1 ["@news"] 30 bot_py_globals
                (files_of (revoke_link 1 (update_of admin no_media "revoke_A")
                             (command [])
                             [new_file_doc "A" "l" 0; new_file_doc "B" "m" 1]))
                [Files.set_revoked (new_file_doc "A" "l" 0);
                 Files.set_revoked (new_file_doc "B" "m" 1)]).
  { eapply steps_cons.
    { exact (step_start 1 ["@news"] 30 bot_py_globals everyone_member
               (update_of reader no_media "") (command ["file_A"]) _). }
    eapply steps_cons.
    { exact (step_handle_media 1 ["@news"] 30 bot_py_globals
               (update_of admin (a_document "A") "") (command []) 9 _). }
    eapply steps_cons.
    { exact (step_revoke_link 1 ["@news"] 30 bot_py_globals
               (update_of admin no_media "revoke_B") (command []) _). }
    apply steps_refl. }
  pose proof
    (C2_revoked_stays_revoked 1 ["@news"] 30 bot_py_globals
       (update_of admin no_media "revoke_A") (command [])
       [new_file_doc "A" "l" 0; new_file_doc "B" "m" 1]
       [Files.set_revoked (new_file_doc "A" "l" 0);
        Files.set_revoked (new_file_doc "B" "m" 1)]
       "A" (new_file_doc "A" "l" 0)
       eq_refl eq_refl eq_refl S) as H.
  destruct H as [R [Q _]]. split; [exact R|].
  pose proof (Q everyone_member (update_of reader no_media "")
                (command ["file_A"]) "file_A" [] eq_refl eq_refl eq_refl) as Q1.
  cbv zeta in Q1. destruct Q1 as [Q1 _].
  destruct (Q1 no_media eq_refl eq_refl) as [E _]. exact E.
Defined.

(** * Further properties of the handlers *)

(** ** [start] *)

Lemma reply_run_calls update body markup :
  snd (reply_run update body markup) = []
  \/ snd (reply_run update body markup) = [reply_text body markup].
Proof. unfold reply_run. destruct (message update); [now right | now left]. Qed.

(** What the lookup says: nothing, "Link expired or invalid.", or the
    announcement followed by the document of an unrevoked match. *)
Lemma redeem_run_visible update fid c :
  filter user_visible (snd (redeem_run update fid c)) = []
  \/ filter user_visible (snd (redeem_run update fid c))
     = [reply_text "Link expired or invalid." []]
  \/ exists d,
       Files.find_one fid c = Some d
       /\ Files.revoked d <> Some true
       /\ filter user_visible (snd (redeem_run update fid c))
          = [reply_text "Accessing file..." [];
             send_document (id (effective_user update)) (Files.file_id d)].
Proof.
  unfold redeem_run, reply_run.
  destruct (Files.find_one fid c) as [d|].
  - destruct (Files.revoked d) as [[|]|] eqn:R; cbn [negb].
    + destruct (message update); [right; now left | now left].
    + destruct (message update); [|now left].
      right; right. exists d. rewrite R. repeat split. discriminate.
    + destruct (message update); [|now left].
      right; right. exists d. rewrite R. repeat split. discriminate.
  - destruct (message update); [right; now left | now left].
Qed.

Lemma redeem_run_store update fid c :
  filter is_store_write (snd (redeem_run update fid c)) = []
  /\ filter is_store_read (snd (redeem_run update fid c)) = [db_find_one fid].
Proof.
  unfold redeem_run, reply_run.
  destruct (Files.find_one fid c) as [d|].
  - destruct (Files.revoked d) as [[|]|]; cbn [negb];
      destruct (message update); now split.
  - destruct (message update); now split.
Qed.

(** [start] writes nothing to the store. *)
Lemma start_store_untouched FORCE_SUB_CHANNELS tg update context c :
  filter is_store_write
    (calls_of (start FORCE_SUB_CHANNELS tg update context c)) = [].
Proof.
  destruct (start_cases FORCE_SUB_CHANNELS tg update context c)
    as [[G E]|[[G E]|[arg0 [rest [G [A [P E]]]]]]];
    cbv zeta in E; rewrite E; unfold calls_of; cbn [snd];
    rewrite filter_after_gate by reflexivity.
  - unfold reply_run. destruct (message update); reflexivity.
  - unfold reply_run. destruct (message update); reflexivity.
  - apply redeem_run_store.
Qed.

(** X1. [start] never writes to the collection, leaves it as it was and
    reads it at most once.  What it says is at most one thing: nothing, the
    subscription prompt, the greeting, "Link expired or invalid.", or
    "Accessing file..." followed by one document for the requester; on an
    update without a message it says nothing. *)
Theorem start_never_writes_and_says_one_thing
    (FORCE_SUB_CHANNELS : list string) (tg : Transport)
    (update : Update) (context : Context) (c : Collection) :
  let user := effective_user update in
  let out := start FORCE_SUB_CHANNELS tg update context c in
  files_of out = c
  /\ filter is_store_write (calls_of out) = []
  /\ (List.length (filter is_store_read (calls_of out)) <= 1)%nat
  /\ (filter user_visible (calls_of out) = []
      \/ filter user_visible (calls_of out)
         = [reply_text "Please subscribe to all our channels to use this bot."
              (subscribe_keyboard FORCE_SUB_CHANNELS)]
      \/ filter user_visible (calls_of out) = [reply_text (greeting user) []]
      \/ filter user_visible (calls_of out)
         = [reply_text "Link expired or invalid." []]
      \/ exists d,
           filter user_visible (calls_of out)
           = [reply_text "Accessing file..." [];
              send_document (id user) (Files.file_id d)])
  /\ (message update = None -> filter user_visible (calls_of out) = []).
Proof.
  intros user out.
  split; [apply start_files|]. split; [apply start_store_untouched|].
  destruct (start_cases FORCE_SUB_CHANNELS tg update context c)
    as [[G E]|[[G E]|[arg0 [rest [G [A [P E]]]]]]];
    fold user in E; fold out in E; rewrite E;
    unfold calls_of; cbn [fst snd];
    rewrite !filter_after_gate by reflexivity.
  - unfold reply_run. destruct (message update) as [msg|]; cbn [snd filter].
    + split; [simpl; lia|]. split; [right; now left | discriminate].
    + split; [simpl; lia|]. split; [now left | reflexivity].
  - unfold reply_run. destruct (message update) as [msg|]; cbn [snd filter].
    + split; [simpl; lia|].
      split; [right; right; now left | discriminate].
    + split; [simpl; lia|]. split; [now left | reflexivity].
  - destruct (redeem_run_store update (Py.replace_empty arg0 "file_") c)
      as [_ Rd].
    rewrite Rd. split; [simpl; lia|]. split.
    + destruct (redeem_run_visible update (Py.replace_empty arg0 "file_") c)
        as [V|[V|[d [_ [_ V]]]]]; rewrite V.
      * now left.
      * right; right; right; now left.
      * right; right; right; right. now exists d.
    + intros Ms. now rewrite (redeem_run_no_message _ _ _ Ms).
Qed.

(** X2. Whatever [start] sends as a document goes to the requester, who passed
    the gate, and is the file id of a document that the collection holds
    under the extracted token and that is not flagged revoked; the file id
    sent is that token. *)
Theorem start_delivers_only_unrevoked
    (FORCE_SUB_CHANNELS : list string) (tg : Transport)
    (update : Update) (context : Context) (c : Collection)
    (chat : Z) (doc : string) :
  In (send_document chat doc)
     (calls_of (start FORCE_SUB_CHANNELS tg update context c)) ->
  chat = id (effective_user update)
  /\ gate tg (id (effective_user update)) FORCE_SUB_CHANNELS = true
  /\ exists arg0 rest d,
       args context = arg0 :: rest
       /\ Py.startswith arg0 "file_" = true
       /\ doc = Py.replace_empty arg0 "file_"
       /\ Files.find_one doc c = Some d
       /\ Files.file_id d = doc
       /\ Files.revoked d <> Some true.
Proof.
  intros I.
  assert (V : In (send_document chat doc)
                (filter user_visible
                   (calls_of (start FORCE_SUB_CHANNELS tg update context c))))
    by (apply filter_In; now split).
  destruct (start_cases FORCE_SUB_CHANNELS tg update context c)
    as [[G E]|[[G E]|[arg0 [rest [G [A [P E]]]]]]];
    cbv zeta in E; rewrite E in V; unfold calls_of in V; cbn [snd] in V;
    rewrite filter_after_gate in V by reflexivity.
  - destruct (reply_run_calls update
                "Please subscribe to all our channels to use this bot."
                (subscribe_keyboard FORCE_SUB_CHANNELS)) as [R|R];
      rewrite R in V; simpl in V; [destruct V|].
    destruct V as [V|[]]. discriminate.
  - destruct (reply_run_calls update (greeting (effective_user update)) [])
      as [R|R]; rewrite R in V; simpl in V; [destruct V|].
    destruct V as [V|[]]. discriminate.
  - destruct (redeem_run_visible update (Py.replace_empty arg0 "file_") c)
      as [W|[W|[d [F [R W]]]]]; rewrite W in V.
    + destruct V.
    + destruct V as [V|[]]. discriminate.
    + destruct V as [V|[V|[]]]; [discriminate|].
      injection V as <- <-.
      pose proof (find_one_file_id _ _ _ F) as Fid.
      split; [reflexivity|]. split; [exact G|].
      exists arg0, rest, d. rewrite Fid.
      repeat split; try assumption; try congruence.
Qed.

Lemma start_delivers_only_unrevoked_witness :
  2%Z = id reader
  /\ gate everyone_member (id reader) ["@news"] = true
  /\ exists arg0 rest d,
       [ "file_A"; "x" ] = arg0 :: rest
       /\ Py.startswith arg0 "file_" = true
       /\ "A" = Py.replace_empty arg0 "file_"
       /\ Files.find_one "A" [new_file_doc "A" "l" 0] = Some d
       /\ Files.file_id d = "A"
       /\ Files.revoked d <> Some true.
Proof.
  apply (start_delivers_only_unrevoked ["@news"] everyone_member
           (update_of reader no_media "") (command ["file_A"; "x"])
           [new_file_doc "A" "l" 0] 2 "A").
  vm_compute. right. right. right. now left.
Defined.

(** X3. A user who passes the gate and sends, in a message, no argument or a
    first argument that does not start with file_, is greeted by name; the
    collection is not read. *)
Theorem start_without_token_greets
    (FORCE_SUB_CHANNELS : list string) (tg : Transport)
    (update : Update) (msg : Message) (context : Context) (c : Collection) :
  message update = Some msg ->
  gate tg (id (effective_user update)) FORCE_SUB_CHANNELS = true ->
  (args context = []
   \/ exists arg0 rest,
        args context = arg0 :: rest /\ Py.startswith arg0 "file_" = false) ->
  let out := start FORCE_SUB_CHANNELS tg update context c in
  filter user_visible (calls_of out)
  = [reply_text
       ("Hello " ++ mention_html (effective_user update)
          ++ "! Use /upload to share files (admin only).") []]
  /\ filter is_store_read (calls_of out) = []
  /\ files_of out = c.
Proof.
  intros Ms G A out. subst out.
  rewrite start_greeting.
  - rewrite (reply_run_message _ _ _ _ Ms).
    unfold files_of, calls_of. cbn [fst snd].
    rewrite !filter_after_gate by reflexivity. now repeat split.
  - exact G.
  - destruct A as [->|[arg0 [rest [-> P]]]]; [exact I | exact P].
Qed.

Lemma start_without_token_greets_witness :
  filter user_visible
    (calls_of (start ["@news"] everyone_member
                 (update_of reader no_media "") (command ["hello"; "file_A"])
                 [new_file_doc "A" "l" 0]))
  = [reply_text
       "Hello <b>reader</b>! Use /upload to share files (admin only)." []].
Proof.
  pose proof
    (start_without_token_greets ["@news"] everyone_member
       (update_of reader no_media "") no_media (command ["hello"; "file_A"])
       [new_file_doc "A" "l" 0] eq_refl eq_refl
       (or_intror (ex_intro _ "hello"
          (ex_intro _ ["file_A"] (conj eq_refl eq_refl))))) as H.
  cbv zeta in H. destruct H as [H _]. exact H.
Defined.

(** ** [revoke_link] and the documents it leaves alone *)

Lemma has_file_id_set_revoked (fid : string) (d : FileDoc) :
  Files.has_file_id fid (Files.set_revoked d) = Files.has_file_id fid d.
Proof. reflexivity. Qed.

Lemma update_one_find_other (fid other : string) (c : Collection) :
  other <> fid ->
  Files.find_one other (snd (Files.update_one fid c)) = Files.find_one other c.
Proof.
  intros N. unfold Files.find_one.
  induction c as [|x c IH]; simpl.
  - reflexivity.
  - destruct (Files.has_file_id fid x) eqn:E.
    + simpl. rewrite has_file_id_set_revoked.
      destruct (Files.has_file_id other x) eqn:E'; [|reflexivity].
      unfold Files.has_file_id in E, E'.
      apply String.eqb_eq in E. apply String.eqb_eq in E'. congruence.
    + destruct (Files.update_one fid c) as [n c']. simpl in *.
      now rewrite IH.
Qed.






(** ** What handler runs keep of the collection *)

Lemma same_but_flags_refl (d : FileDoc) : same_but_flags d d.
Proof. unfold same_but_flags. repeat split. now left. Qed.

Lemma same_but_flags_set_revoked (d : FileDoc) :
  same_but_flags d (Files.set_revoked d).
Proof. unfold same_but_flags. repeat split. now right. Qed.

Lemma same_but_flags_trans (d1 d2 d3 : FileDoc) :
  same_but_flags d1 d2 ->
  (Files.revoked d2 = Some true -> Files.revoked d3 = Some true) ->
  same_but_flags d2 d3 -> same_but_flags d1 d3.
Proof.
  unfold same_but_flags.
  intros [F1 [L1 [T1 R1]]] K [F2 [L2 [T2 R2]]].
  repeat split; try congruence.
  destruct R2 as [R2|R2]; [|now right].
  destruct R1 as [R1|R1]; [left; congruence|].
  right. now apply K.
Qed.

(** One run: every document stays at its place with its token, link and
    timestamp; its flag stays or becomes True, and a True flag stays. *)
Lemma step_keeps_documents ADMIN_ID FORCE_SUB_CHANNELS DELETE_TIME_MINUTES
    globals c c' :
  step ADMIN_ID FORCE_SUB_CHANNELS DELETE_TIME_MINUTES globals c c' ->
  (List.length c <= List.length c')%nat
  /\ forall i d,
       nth_error c i = Some d ->
       exists d', nth_error c' i = Some d'
                  /\ same_but_flags d d'
                  /\ (Files.revoked d = Some true ->
                      Files.revoked d' = Some true).
Proof.
  intros H.
  destruct (step_cases _ _ _ _ _ _ H) as [->|[[f [l [n ->]]]|[f ->]]].
  - split; [lia|]. intros i d N. exists d.
    split; [exact N|]. split; [apply same_but_flags_refl | tauto].
  - split; [unfold Files.insert_one; rewrite length_app; simpl; lia|].
    intros i d N. exists d.
    split; [now apply insert_one_nth|].
    split; [apply same_but_flags_refl | tauto].
  - split; [rewrite update_one_length; lia|].
    intros i d N. destruct (update_one_nth f c i d N) as [E|E].
    + exists d. split; [exact E|].
      split; [apply same_but_flags_refl | tauto].
    + exists (Files.set_revoked d). split; [exact E|].
      split; [apply same_but_flags_set_revoked | reflexivity].
Qed.

(** X6. Over any number of handler runs, uploads and revokes included, no
    document is removed, moved or rewritten: the collection only grows at
    its end, each document keeps its place, token, link and timestamp, and
    the only change to a document is its flag being set to True, for
    good. *)
Theorem steps_keep_documents
    (ADMIN_ID : Z) (FORCE_SUB_CHANNELS : list string)
    (DELETE_TIME_MINUTES : Z) (globals : namespace) (c c' : Collection) :
  steps ADMIN_ID FORCE_SUB_CHANNELS DELETE_TIME_MINUTES globals c c' ->
  (List.length c <= List.length c')%nat
  /\ forall i d,
       nth_error c i = Some d ->
       exists d', nth_error c' i = Some d'
                  /\ same_but_flags d d'
                  /\ (Files.revoked d = Some true ->
                      Files.revoked d' = Some true).
Proof.
  induction 1 as [c|c1 c2 c3 H12 _ [L23 IH]].
  - split; [lia|]. intros i d N. exists d.
    split; [exact N|]. split; [apply same_but_flags_refl | tauto].
  - destruct (step_keeps_documents _ _ _ _ _ _ H12) as [L12 K12].
    split; [lia|]. intros i d N.
    destruct (K12 i d N) as [d2 [N2 [S2 R2]]].
    destruct (IH i d2 N2) as [d3 [N3 [S3 R3]]].
    exists d3. split; [exact N3|].
    split; [exact (same_but_flags_trans _ _ _ S2 R3 S3) | tauto].
Qed.

Lemma steps_keep_documents_witness :
  (List.length [new_file_doc "A" "l" 0] <=
   List.length [Files.set_revoked (new_file_doc "A" "l" 0);
                new_file_doc "A" "https://t.me/file_bot?start=file_A" 9])%nat
  /\ forall i d,
       nth_error [new_file_doc "A" "l" 0] i = Some d ->
       exists d',
         nth_error
           [Files.set_revoked (new_file_doc "A" "l" 0);
            new_file_doc "A" "https://t.me/file_bot?start=file_A" 9] i
         = Some d'
         /\ same_but_flags d d'
         /\ (Files.revoked d = Some true -> Files.revoked d' = Some true).
Proof.
  apply (steps_keep_documents 1 ["@news"] 30 globals_with_context).
  eapply steps_cons.
  { exact (step_revoke_link 1 ["@news"] 30 globals_with_context
             (update_of admin no_media "revoke_A") (command []) _). }
  eapply steps_cons.
  { exact (step_handle_media 1 ["@news"] 30 globals_with_context
             (update_of admin (a_document "A") "") (command []) 9 _). }
  apply steps_refl.
Defined.

(** ** [handle_media] *)

(** X7. A run of [handle_media] either writes nothing, arms nothing and leaves
    the collection as it was, or it is the administrator's upload of a
    message with media whose link was built: then it appends exactly one
    unrevoked document with the media's file id, that link and the time of
    the upload, answers with the same link and a revoke button for the same
    file id, and arms one job for the uploaded message after
    DELETE_TIME_MINUTES * 60. *)
Theorem handle_media_all_or_nothing
    (ADMIN_ID DELETE_TIME_MINUTES : Z) (globals : namespace)
    (update : Update) (context : Context) (now : Z) (c : Collection) :
  let out :=
    handle_media ADMIN_ID DELETE_TIME_MINUTES globals update context now c in
  (files_of out = c
   /\ filter is_store_write (calls_of out) = []
   /\ filter is_job (calls_of out) = []
   /\ (forall body markup,
          In (reply_text body markup) (calls_of out) ->
          markup = []
          /\ (body = "Only admin can upload files."
              \/ body = "Unsupported file type.")))
  \/ (exists msg fid link,
         id (effective_user update) = ADMIN_ID
         /\ message update = Some msg
         /\ media_file_id msg = Some fid
         /\ generate_link globals fid = Ok link
         /\ out
            = (Ok tt,
               (c ++ [{| Files.file_id := fid; Files.link := link;
                         Files.revoked := Some false;
                         Files.timestamp := now |}])%list,
               [db_insert_one (new_file_doc fid link now);
                reply_text ("File uploaded! Share this link: " ++ link)
                  [[{| text := "Revoke Link"; url := None;
                       callback_data := Some ("revoke_" ++ fid) |}]];
                run_once (DELETE_TIME_MINUTES * 60) (message_id msg)])).
Proof.
  intros out. subst out.
  destruct (handle_media_cases ADMIN_ID DELETE_TIME_MINUTES globals
              update context now c)
    as [[r [es [E S]]]|[msg [fid [link [A [Ms [F [L E]]]]]]]]; rewrite E.
  - left. unfold files_of, calls_of. cbn [fst snd].
    destruct S as [-> | [-> | ->]].
    + split; [reflexivity|]. split; [reflexivity|]. split; [reflexivity|].
      intros body markup [].
    + split; [reflexivity|]. split; [reflexivity|]. split; [reflexivity|].
      intros body markup [I|[]]. injection I as <- <-.
      split; [|left]; reflexivity.
    + split; [reflexivity|]. split; [reflexivity|]. split; [reflexivity|].
      intros body markup [I|[]]. injection I as <- <-.
      split; [|right]; reflexivity.
  - right. exists msg, fid, link. now repeat split.
Qed.

(** X8. The administrator sending a message without document, photo or video
    is told "Unsupported file type."; nothing is written, whatever the
    module's namespace. *)
Theorem handle_media_without_media
    (ADMIN_ID DELETE_TIME_MINUTES : Z) (globals : namespace)
    (update : Update) (msg : Message) (context : Context) (now : Z)
    (c : Collection) :
  id (effective_user update) = ADMIN_ID ->
  message update = Some msg ->
  document msg = None ->
  photo msg = [] ->
  video msg = None ->
  handle_media ADMIN_ID DELETE_TIME_MINUTES globals update context now c
  = (Ok tt, c, [reply_text "Unsupported file type." []]).
Proof.
  intros A Ms D P V.
  apply (handle_media_unsupported _ _ _ _ _ _ _ msg A Ms).
  unfold media_file_id. now rewrite D, P, V.
Qed.

Lemma handle_media_without_media_witness :
  handle_media 1 30 bot_py_globals (update_of admin no_media "") (command [])
    0 [new_file_doc "A" "l" 0]
  = (Ok tt, [new_file_doc "A" "l" 0],
     [reply_text "Unsupported file type." []]).
Proof.
  exact (handle_media_without_media 1 30 bot_py_globals
           (update_of admin no_media "") no_media (command []) 0
           [new_file_doc "A" "l" 0] eq_refl eq_refl eq_refl eq_refl eq_refl).
Defined.

(** X9. With the namespace bot.py builds, no sequence of handler runs adds a
    document: the collection keeps its length and, place by place, its
    tokens, links and timestamps; a token without a document never gets
    one. *)
Theorem as_written_no_document_is_added
    (ADMIN_ID : Z) (FORCE_SUB_CHANNELS : list string)
    (DELETE_TIME_MINUTES : Z) (c c' : Collection) :
  steps ADMIN_ID FORCE_SUB_CHANNELS DELETE_TIME_MINUTES bot_py_globals c c' ->
  List.length c' = List.length c
  /\ map Files.file_id c' = map Files.file_id c
  /\ map Files.link c' = map Files.link c
  /\ map Files.timestamp c' = map Files.timestamp c
  /\ (forall token,
         Files.find_one token c = None -> Files.find_one token c' = None).
Proof.
  intros S.
  destruct (steps_as_written_keep_fields _ _ _ _ _ S) as [K1 [K2 K3]].
  split; [|split; [exact K1|split; [exact K2|split; [exact K3|]]]].
  - rewrite <- (length_map Files.file_id c'), K1. apply length_map.
  - intros token N. apply find_one_none_iff. rewrite K1.
    now apply find_one_none_iff.
Qed.

Lemma as_written_no_document_is_added_witness :
  List.length [Files.set_revoked (new_file_doc "B" "m" 0)]
  = List.length [new_file_doc "B" "m" 0]
  /\ Files.find_one "A" [Files.set_revoked (new_file_doc "B" "m" 0)] = None.
Proof.
  assert (S : steps 1 ["@news"] 30 bot_py_globals
                [new_file_doc "B" "m" 0]
                [Files.set_revoked (new_file_doc "B" "m" 0)]).
  { eapply steps_cons.
    { exact (step_handle_media 1 ["@news"] 30 bot_py_globals
               (update_of admin (a_document "A") "") (command []) 9 _). }
    eapply steps_cons.
    { exact (step_revoke_link 1 ["@news"] 30 bot_py_globals
               (update_of admin no_media "revoke_B") (command []) _). }
    apply steps_refl. }
  pose proof (as_written_no_document_is_added 1 ["@news"] 30 _ _ S) as H.
  destruct H as [L [_ [_ [_ N]]]]. split; [exact L|].
  apply N. reflexivity.
Defined.

(** ** Exact extraction *)

Lemma remove_from_length (old : string) (k : nat) (s : string) :
  (String.length (Py.remove_from old k s) <= String.length s)%nat.
Proof.
  revert k. induction s as [|a s IH]; intros k; cbn [Py.remove_from].
  - lia.
  - destruct k as [|k].
    + destruct (String.prefix old (String a s)).
      * specialize (IH (String.length old - 1)%nat). simpl. lia.
      * specialize (IH 0%nat). simpl. lia.
    + specialize (IH k). simpl. lia.
Qed.

Lemma remove_from_shrinks (old s : string) :
  marker_free old s = false ->
  (String.length (Py.remove_from old 0 s) < String.length s)%nat.
Proof.
  induction s as [|a s IH]; cbn [marker_free Py.remove_from].
  - discriminate.
  - destruct (String.prefix old (String a s)).
    + intros _.
      pose proof (remove_from_length old (String.length old - 1) s).
      simpl. lia.
    + simpl. intros F. specialize (IH F). lia.
Qed.

Lemma remove_from_fixed_iff (old s : string) :
  Py.remove_from old 0 s = s <-> marker_free old s = true.
Proof.
  split.
  - intros E. destruct (marker_free old s) eqn:F; [reflexivity|].
    pose proof (remove_from_shrinks old s F) as L. rewrite E in L. lia.
  - apply remove_from_marker_free.
Qed.

(** X10. The token [start] extracts from the payload file_<token>, and the token
    [revoke_link] extracts from revoke_<token>, is <token> itself exactly
    when <token> does not contain the marker; otherwise it is a shorter
    string. *)
Theorem token_extracted_exactly_iff_marker_free (token : string) :
  (Py.replace_empty ("file_" ++ token) "file_" = token
   <-> marker_free "file_" token = true)
  /\ (Py.replace_empty ("revoke_" ++ token) "revoke_" = token
      <-> marker_free "revoke_" token = true)
  /\ (marker_free "file_" token = false ->
      (String.length (Py.replace_empty ("file_" ++ token) "file_")
       < String.length token)%nat)
  /\ (marker_free "revoke_" token = false ->
      (String.length (Py.replace_empty ("revoke_" ++ token) "revoke_")
       < String.length token)%nat).
Proof.
  rewrite start_token_of_payload, revoke_token_of_payload.
  unfold Py.replace_empty.
  split; [apply remove_from_fixed_iff|].
  split; [apply remove_from_fixed_iff|].
  split; apply remove_from_shrinks.
Qed.

(** ** From redemption to revoke *)

(** X11. For a file id that contains neither marker and whose first document
    is not flagged revoked: a gate-passing user's message /start
    file_<id> is served that document; after the administrator's button
    press with data revoke_<id> the token resolves to the same document
    with the flag set, every other token resolves as before, and the same
    message is answered "Link expired or invalid.". *)
Theorem document_served_until_revoked
    (ADMIN_ID : Z) (FORCE_SUB_CHANNELS : list string) (tg : Transport)
    (update press_update : Update) (msg : Message)
    (context press_context : Context)
    (c : Collection) (fid : string) (d : FileDoc) (rest : list string) :
  marker_free "file_" fid = true ->
  marker_free "revoke_" fid = true ->
  Files.find_one fid c = Some d ->
  Files.revoked d <> Some true ->
  message update = Some msg ->
  gate tg (id (effective_user update)) FORCE_SUB_CHANNELS = true ->
  args context = ("file_" ++ fid) :: rest ->
  id (from_user (callback_query press_update)) = ADMIN_ID ->
  data (callback_query press_update) = "revoke_" ++ fid ->
  let c2 := files_of (revoke_link ADMIN_ID press_update press_context c) in
  filter user_visible
    (calls_of (start FORCE_SUB_CHANNELS tg update context c))
  = [reply_text "Accessing file..." [];
     send_document (id (effective_user update)) fid]
  /\ Files.find_one fid c2 = Some (Files.set_revoked d)
  /\ (forall other, other <> fid ->
        Files.find_one other c2 = Files.find_one other c)
  /\ filter user_visible
       (calls_of (start FORCE_SUB_CHANNELS tg update context c2))
     = [reply_text "Link expired or invalid." []].
Proof.
  intros Mf Mr F NR Ms G A Ad D c2.
  assert (P : Py.startswith ("file_" ++ fid) "file_" = true)
    by apply prefix_append.
  assert (T : Py.replace_empty ("file_" ++ fid) "file_" = fid)
    by now apply start_token_marker_free.
  assert (E2 : c2 = snd (Files.update_one fid c)).
  { subst c2. rewrite (revoke_link_admin _ _ _ _ Ad).
    unfold files_of. cbn [fst snd].
    now rewrite D, (revoke_token_marker_free _ Mr). }
  assert (F2 : Files.find_one fid c2 = Some (Files.set_revoked d))
    by (rewrite E2; now apply update_one_found).
  split; [|split; [exact F2|split]].
  - rewrite (start_redeem _ _ _ _ _ _ _ G A P), T.
    rewrite (redeem_run_on_message _ _ _ _ Ms).
    unfold calls_of. cbn [snd].
    rewrite filter_after_gate by reflexivity. rewrite F.
    rewrite (find_one_file_id _ _ _ F).
    destruct (Files.revoked d) as [[|]|]; [now elim NR | reflexivity..].
  - intros other N. rewrite E2. now apply update_one_find_other.
  - rewrite (start_redeem _ _ _ _ _ _ _ G A P), T.
    rewrite (redeem_run_on_message _ _ _ _ Ms).
    unfold calls_of. cbn [snd].
    rewrite filter_after_gate by reflexivity. now rewrite F2.
Qed.

Lemma document_served_until_revoked_witness :
  filter user_visible
    (calls_of (start ["@news"] everyone_member
                 (update_of reader no_media "") (command ["file_A"])
                 [new_file_doc "B" "m" 0; new_file_doc "A" "l" 3]))
  = [reply_text "Accessing file..." []; send_document 2 "A"]
  /\ filter user_visible
       (calls_of (start ["@news"] everyone_member
                    (update_of reader no_media "") (command ["file_A"])
                    (files_of
                       (revoke_link 1 (update_of admin no_media "revoke_A")
                          (command [])
                          [new_file_doc "B" "m" 0; new_file_doc "A" "l" 3]))))
     = [reply_text "Link expired or invalid." []].
Proof.
  assert (NR : Files.revoked (new_file_doc "A" "l" 3) <> Some true)
    by discriminate.
  pose proof
    (document_served_until_revoked 1 ["@news"] everyone_member
       (update_of reader no_media "") (update_of admin no_media "revoke_A")
       no_media (command ["file_A"]) (command [])
       [new_file_doc "B" "m" 0; new_file_doc "A" "l" 3] "A"
       (new_file_doc "A" "l" 3) []
       eq_refl eq_refl eq_refl NR eq_refl eq_refl eq_refl eq_refl eq_refl)
    as H.
  cbv zeta in H. destruct H as [H1 [_ [_ H4]]]. split; [exact H1 | exact H4].
Defined.

(** ** The gate asks only what it must *)

Lemma queried_incl tg user_id channels :
  incl (queried tg user_id channels) channels
  /\ (List.length (queried tg user_id channels) <= List.length channels)%nat.
Proof.
  induction channels as [|x l [IH1 IH2]]; simpl.
  - split; [apply incl_refl | lia].
  - destruct (satisfies tg user_id x).
    + split; [|lia]. intros y [<-|I]; [now left | right; now apply IH1].
    + split; [|simpl; lia]. intros y [<-|[]]. now left.
Qed.

(** X13. Every call [is_subscribed] makes is a membership query about the
    requesting user and a configured channel; there are no more queries
    than channels. *)
Theorem is_subscribed_asks_only_about_requester
    (FORCE_SUB_CHANNELS : list string) (tg : Transport)
    (update : Update) (context : Context) (c : Collection) :
  let out := is_subscribed FORCE_SUB_CHANNELS tg update context c in
  (forall e, In e (calls_of out) ->
     exists channel,
       In channel FORCE_SUB_CHANNELS
       /\ e = get_chat_member channel (id (effective_user update)))
  /\ (List.length (calls_of out) <= List.length FORCE_SUB_CHANNELS)%nat.
Proof.
  intros out. subst out. rewrite is_subscribed_run.
  unfold calls_of, gate_calls. cbn [snd].
  destruct (queried_incl tg (id (effective_user update)) FORCE_SUB_CHANNELS)
    as [Inc Len].
  split.
  - intros e I. apply in_map_iff in I. destruct I as [channel [<- I]].
    exists channel. split; [now apply Inc | reflexivity].
  - now rewrite length_map.
Qed.

(** X14. The administrator's actions are not gated: [upload], [handle_media],
    [revoke_link] and [delete_message] never query a membership and never
    read the collection. *)
Theorem admin_actions_are_not_gated
    (ADMIN_ID DELETE_TIME_MINUTES : Z) (globals : namespace)
    (update : Update) (context : Context) (now job_data : Z)
    (c : Collection) (e : effect) :
  In e (calls_of (upload ADMIN_ID update context c)
        ++ calls_of (handle_media ADMIN_ID DELETE_TIME_MINUTES globals
                       update context now c)
        ++ calls_of (revoke_link ADMIN_ID update context c)
        ++ calls_of (delete_message context job_data c))%list ->
  is_membership_query e = false /\ is_store_read e = false.
Proof.
  intros I.
  apply in_app_or in I. destruct I as [I|I].
  { unfold upload, message_reply_text in I.
    destruct (negb (id (effective_user update) =? ADMIN_ID)%Z);
      destruct (message update); simpl in I;
      try (destruct I as [<-|[]]; now split); destruct I. }
  apply in_app_or in I. destruct I as [I|I].
  { destruct (handle_media_cases ADMIN_ID DELETE_TIME_MINUTES globals
                update context now c)
      as [[r [es [E S]]]|[msg [fid [link [_ [_ [_ [_ E]]]]]]]];
      rewrite E in I; unfold calls_of in I; cbn [snd] in I.
    - destruct S as [-> | [-> | ->]].
      + destruct I.
      + destruct I as [<-|[]]; now split.
      + destruct I as [<-|[]]; now split.
    - destruct I as [<-|[<-|[<-|[]]]]; now split. }
  apply in_app_or in I. destruct I as [I|I].
  { destruct (Z.eq_dec (id (from_user (callback_query update))) ADMIN_ID)
      as [A|A].
    - rewrite (revoke_link_admin _ _ _ _ A) in I.
      destruct I as [<-|[<-|[<-|[]]]]; now split.
    - rewrite (revoke_link_not_admin _ _ _ _ A) in I.
      destruct I as [<-|[<-|[]]]; now split. }
  destruct I as [<-|[]]; now split.
Qed.

Lemma admin_actions_are_not_gated_witness :
  is_membership_query (db_update_one "A") = false
  /\ is_store_read (db_update_one "A") = false.
Proof.
  apply (admin_actions_are_not_gated 1 30 bot_py_globals
           (update_of admin no_media "revoke_A") (command []) 0 7
           [new_file_doc "A" "l" 0] (db_update_one "A")).
  vm_compute. right. right. right. now left.
Defined.

(** ** The channel list of the configuration *)

Lemma str_split_cons (sep : ascii) (s : string) :
  exists piece pieces, Config.str_split sep s = piece :: pieces.
Proof.
  induction s as [|ch rest [piece [pieces IH]]]; simpl.
  - now exists EmptyString, [].
  - rewrite IH. destruct (Ascii.eqb ch sep).
    + now exists EmptyString, (piece :: pieces)%list.
    + now exists (String ch piece), pieces.
Qed.

Lemma str_join_cons (sep : ascii) (p q : string) (qs : list string) :
  Config.str_join sep (p :: q :: qs)
  = p ++ String sep (Config.str_join sep (q :: qs)).
Proof. reflexivity. Qed.

Lemma str_join_split (sep : ascii) (s : string) :
  Config.str_join sep (Config.str_split sep s) = s.
Proof.
  induction s as [|ch rest IH]; simpl.
  - reflexivity.
  - destruct (str_split_cons sep rest) as [piece [pieces E]].
    rewrite E in *.
    destruct (Ascii.eqb_spec ch sep) as [->|N].
    + rewrite str_join_cons, IH. reflexivity.
    + destruct pieces as [|p ps].
      * simpl in *. now rewrite IH.
      * rewrite str_join_cons. rewrite str_join_cons in IH.
        cbn [append]. f_equal. exact IH.
Qed.

Lemma str_split_piece (sep : ascii) (piece : string) :
  ~ In sep (list_ascii_of_string piece) ->
  Config.str_split sep piece = [piece]
  /\ forall s, Config.str_split sep (piece ++ String sep s)
               = piece :: Config.str_split sep s.
Proof.
  induction piece as [|ch piece IH]; intros N.
  - split; [reflexivity|]. intros s. simpl.
    destruct (str_split_cons sep s) as [p [ps E]]. rewrite E.
    now rewrite Ascii.eqb_refl.
  - simpl in N.
    assert (Nch : Ascii.eqb ch sep = false)
      by (apply Ascii.eqb_neq; intros ->; apply N; now left).
    destruct IH as [IH1 IH2]; [intros I; apply N; now right|].
    split.
    + simpl. now rewrite IH1, Nch.
    + intros s. simpl. now rewrite IH2, Nch.
Qed.

Lemma str_split_join (sep : ascii) (pieces : list string) :
  pieces <> [] ->
  (forall piece, In piece pieces -> ~ In sep (list_ascii_of_string piece)) ->
  Config.str_split sep (Config.str_join sep pieces) = pieces.
Proof.
  induction pieces as [|p ps IH]; intros NE Free; [now elim NE|].
  destruct (str_split_piece sep p (Free p (or_introl eq_refl))) as [S1 S2].
  destruct ps as [|q qs].
  - exact S1.
  - change (Config.str_join sep (p :: q :: qs))
      with (p ++ String sep (Config.str_join sep (q :: qs))).
    rewrite S2, IH; [reflexivity | discriminate |].
    intros piece I. apply Free. now right.
Qed.

Lemma str_split_pieces_free (sep : ascii) (s piece : string) :
  In piece (Config.str_split sep s) ->
  ~ In sep (list_ascii_of_string piece).
Proof.
  revert piece. induction s as [|ch rest IH]; intros piece; simpl.
  - intros [<-|[]]. simpl. tauto.
  - destruct (str_split_cons sep rest) as [p [ps E]]. rewrite E in *.
    destruct (Ascii.eqb_spec ch sep) as [->|N].
    + intros [<-|I]; [simpl; tauto | now apply IH].
    + intros [<-|I].
      * simpl. intros [->|I]; [now elim N|].
        revert I. apply IH. now left.
      * apply IH. now right.
Qed.

(** X15. Reading the channel list splits the variable's value at its commas and
    nothing else: joining the channels with commas gives the value back,
    no channel contains a comma, and a non-empty value always yields at
    least one channel.  Nothing is trimmed or dropped, so an empty piece
    (two commas in a row, a comma at either end) is a channel too. *)
Theorem channels_are_the_comma_separated_pieces (value : string) :
  value <> EmptyString ->
  let channels := Config.FORCE_SUB_CHANNELS (Some value) in
  Config.str_join "," channels = value
  /\ channels <> []
  /\ (forall channel,
         In channel channels -> ~ In ","%char (list_ascii_of_string channel))
  /\ (forall before after,
         value = before ++ "," ++ after ->
         ~ In ","%char (list_ascii_of_string before) ->
         exists more, channels = before :: more).
Proof.
  intros NE channels. subst channels.
  destruct value as [|ch rest]; [now elim NE|].
  unfold Config.FORCE_SUB_CHANNELS.
  split; [apply str_join_split|]. split.
  - destruct (str_split_cons "," (String ch rest)) as [p [ps E]].
    rewrite E. discriminate.
  - split.
    + intros channel I. now apply (str_split_pieces_free _ _ _ I).
    + intros before after E F. rewrite E.
      destruct (str_split_piece "," before F) as [_ S].
      change ("," ++ after) with (String ","%char after).
      rewrite S. eexists. reflexivity.
Qed.

Lemma channels_are_the_comma_separated_pieces_witness :
  Config.str_join "," (Config.FORCE_SUB_CHANNELS (Some "@news, @files,"))
  = "@news, @files,"
  /\ Config.FORCE_SUB_CHANNELS (Some "@news, @files,")
     = ["@news"; " @files"; ""].
Proof.
  assert (NE : "@news, @files," <> EmptyString) by discriminate.
  pose proof (channels_are_the_comma_separated_pieces "@news, @files," NE)
    as H.
  cbv zeta in H. destruct H as [H _]. split; [exact H | reflexivity].
Defined.

(** X16. A list of channels that are free of commas, written out with commas,
    is read back as that list, provided the written value is not empty. *)
Theorem channels_read_back (channels : list string) :
  channels <> [] ->
  (forall channel,
      In channel channels -> ~ In ","%char (list_ascii_of_string channel)) ->
  Config.str_join "," channels <> EmptyString ->
  Config.FORCE_SUB_CHANNELS (Some (Config.str_join "," channels)) = channels.
Proof.
  intros NE Free NV. unfold Config.FORCE_SUB_CHANNELS.
  destruct (Config.str_join "," channels) as [|ch rest] eqn:E;
    [now elim NV|].
  rewrite <- E. now apply str_split_join.
Qed.

Lemma channels_read_back_witness :
  Config.FORCE_SUB_CHANNELS (Some (Config.str_join "," ["@news"; "@files"]))
  = ["@news"; "@files"].
Proof.
  apply (channels_read_back ["@news"; "@files"]).
  - discriminate.
  - intros channel [<-|[<-|[]]]; vm_compute; intuition discriminate.
  - discriminate.
Defined.

(** X17. With the variable unset or empty, and only then, there is no channel;
    [start] then asks the transport nothing and lets every user through to
    the greeting or the lookup. *)
Theorem no_channels_configured_opens_the_gate
    (getenv : option string) (tg : Transport)
    (update : Update) (context : Context) (c : Collection) :
  (Config.FORCE_SUB_CHANNELS getenv = []
   <-> getenv = None \/ getenv = Some EmptyString)
  /\ (Config.FORCE_SUB_CHANNELS getenv = [] ->
      let out := start (Config.FORCE_SUB_CHANNELS getenv) tg update context c in
      filter is_membership_query (calls_of out) = []
      /\ forall body markup,
           In (reply_text body markup) (calls_of out) ->
           body <> "Please subscribe to all our channels to use this bot.").
Proof.
  split.
  - destruct getenv as [[|ch rest]|]; simpl.
    + split; [intros _; now right | reflexivity].
    + destruct (str_split_cons "," (String ch rest)) as [p [ps E]].
      simpl in E. rewrite E.
      split; [discriminate | intros [H|H]; discriminate].
    + split; [intros _; now left | reflexivity].
  - intros ->. cbv zeta.
    destruct (start_cases [] tg update context c)
      as [[G _]|[[G E]|[arg0 [rest [G [A [P E]]]]]]];
      [discriminate| |]; cbv zeta in E; rewrite E;
      unfold calls_of, gate_calls; cbn [snd queried map app].
    + unfold reply_run. destruct (message update); cbn [snd].
      * split; [reflexivity|].
        intros body markup [I|[]]. injection I as <- <-.
        unfold greeting. discriminate.
      * split; [reflexivity|]. intros body markup [].
    + unfold redeem_run, reply_run.
      destruct (Files.find_one (Py.replace_empty arg0 "file_") c) as [d|];
        [destruct (Files.revoked d) as [[|]|]|];
        cbn [negb]; destruct (message update); cbn [fst snd];
        (split; [reflexivity|]);
        intros body markup I; simpl in I;
        repeat (destruct I as [I|I];
                [try discriminate;
                 try (injection I as <- <-; discriminate)|]);
        destruct I.
Qed.
